(** * UPClientZenoh: a shallow embedding of [up_client_zenoh/upclientzenoh.py]

    The adapter is a Python class with four dictionaries, three locks, a
    stored source address and a zenoh session.  Its methods are embedded as
    computations in a small state-and-exception monad over an explicit
    adapter state.  Everything the class imports (protobuf serialisation,
    the uprotocol validators, the ZenohUtils codec, the zenoh session) is
    taken as a parameter, collected in the record [Env]. *)

From Stdlib Require Import ZArith QArith.
From stdpp Require Import gmap strings list fin_maps.

Local Open Scope string_scope.

(** ** Data model *)

(** Python [bytes] values are byte strings. *)
Abbreviation bytes := string (only parsing).

(** A listener is an object compared and hashed by identity. *)
Abbreviation UListener := positive (only parsing).

(** Handles granted by the substrate. *)
Abbreviation Subscriber := positive (only parsing).
Abbreviation Queryable := positive (only parsing).

(** The opaque attachment blob produced by the codec. *)
Abbreviation Attachment := string (only parsing).

Inductive UCode := OK | INVALID_ARGUMENT | INTERNAL.

Record UStatus := mkUStatus { code : UCode; message : string }.

Inductive UMessageType :=
| UMESSAGE_TYPE_UNSPECIFIED
| UMESSAGE_TYPE_PUBLISH
| UMESSAGE_TYPE_REQUEST
| UMESSAGE_TYPE_RESPONSE
| UMESSAGE_TYPE_NOTIFICATION
| UMESSAGE_TYPE_UNRECOGNIZED (n : Z).

Inductive UPriority :=
| UPRIORITY_UNSPECIFIED
| UPRIORITY_CS0 | UPRIORITY_CS1 | UPRIORITY_CS2 | UPRIORITY_CS3
| UPRIORITY_CS4 | UPRIORITY_CS5 | UPRIORITY_CS6.

Inductive UPayloadFormat :=
| UPAYLOAD_FORMAT_UNSPECIFIED
| UPAYLOAD_FORMAT_PROTOBUF_WRAPPED_IN_ANY
| UPAYLOAD_FORMAT_PROTOBUF
| UPAYLOAD_FORMAT_JSON
| UPAYLOAD_FORMAT_SOMEIP
| UPAYLOAD_FORMAT_SOMEIP_TLV
| UPAYLOAD_FORMAT_RAW
| UPAYLOAD_FORMAT_TEXT.

(** [str(payload.format)]: the decimal numeral of the enum's number. *)
Definition str_UPayloadFormat (f : UPayloadFormat) : string :=
  match f with
  | UPAYLOAD_FORMAT_UNSPECIFIED => "0"
  | UPAYLOAD_FORMAT_PROTOBUF_WRAPPED_IN_ANY => "1"
  | UPAYLOAD_FORMAT_PROTOBUF => "2"
  | UPAYLOAD_FORMAT_JSON => "3"
  | UPAYLOAD_FORMAT_SOMEIP => "4"
  | UPAYLOAD_FORMAT_SOMEIP_TLV => "5"
  | UPAYLOAD_FORMAT_RAW => "6"
  | UPAYLOAD_FORMAT_TEXT => "7"
  end.

Record UAuthority := mkUAuthority { authority_name : string }.
Record UEntity := mkUEntity { entity_name : string }.
Record UResource := mkUResource {
  resource_name : string;
  resource_instance : string;
  resource_id : Z
}.

(** A topic identifier, a protobuf message.  A field is [None] when it is
    not set.  Reading a field in Python never gives [None]: a field that is
    not set reads as the default instance (see [truthy_message]). *)
Record UUri := mkUUri {
  authority : option UAuthority;
  entity : option UEntity;
  resource : option UResource
}.

Record UUID := mkUUID { msb : Z; lsb : Z }.

(** Message attributes, a protobuf message.  [source], [sink] and [ttl]
    are [None] when they are not set; reading them gives the default
    instance, and zero for the number (see [read_UUri], [read_ttl]). *)
Record UAttributes := mkUAttributes {
  id : UUID;
  type : UMessageType;
  source : option UUri;
  sink : option UUri;
  priority : UPriority;
  ttl : option Z;
  reqid : UUID
}.

Record UPayload := mkUPayload {
  format : UPayloadFormat;
  value : bytes
}.

Record UMessage := mkUMessage {
  attributes : UAttributes;
  payload : UPayload
}.

Record CallOptions := mkCallOptions { options_ttl : Z }.

(** The object handed back by [invoke_method]. *)
Inductive Future :=
| Future_result (m : UMessage)
| Future_exception (s : UStatus).

Inductive ValidationResult :=
| ValidationSuccess
| ValidationFailure (msg : string).

(** ** The substrate's values *)

Inductive Priority :=
| REAL_TIME | INTERACTIVE_HIGH | INTERACTIVE_LOW
| DATA_HIGH | DATA | DATA_LOW | BACKGROUND.

Inductive Encoding :=
| APP_CUSTOM_with_suffix (suffix : string)
| OTHER_ENCODING (name : string).

Record Value := mkValue { value_payload : bytes; value_encoding : Encoding }.

(** What [ZenohUtils.to_zenoh_key_string] hands back: a key string, or a
    status object ([invoke_method] tests the result with [isinstance]). *)
Inductive KeyResult :=
| KeyString (k : string)
| KeyStatus (s : UStatus).

Record Sample := mkSample {
  sample_key_expr : string;
  sample_value : Value;
  sample_attachment : option Attachment
}.

(** An incoming query, as handed to a queryable callback. *)
Record Query := mkQuery {
  key_expr : string;
  query_attachment : option Attachment;
  query_value : option Value
}.

(** One element of the reply channel read by [invoke_method]. *)
Inductive Reply :=
| ReplyOk (ok : Sample)
| ReplyErr (err : string).

Definition is_ok (r : Reply) : bool :=
  match r with ReplyOk _ => true | ReplyErr _ => false end.

(** ** Exceptions and outcomes *)

Inductive PyExn :=
| ValueError (msg : string)
| TypeError (msg : string)
| ZenohError (msg : string).

Definition str_exn (e : PyExn) : string :=
  match e with ValueError m | TypeError m | ZenohError m => m end.

Inductive outcome (A : Type) :=
| Return (a : A)
| Raise (e : PyExn).
Arguments Return {A} a.
Arguments Raise {A} e.

(** ** Locks, registries and the event trace *)

(** The three locks created by [__init__]. *)
Inductive Lock := rpc_callback_lock | queryable_lock | subscriber_lock.

(** The four dictionaries created by [__init__]. *)
Inductive Registry :=
| reg_subscriber_map | reg_queryable_map | reg_query_map | reg_rpc_callback_map.

#[global] Instance Lock_eq_dec : EqDecision Lock.
Proof. solve_decision. Defined.
#[global] Instance Registry_eq_dec : EqDecision Registry.
Proof. solve_decision. Defined.

(** Everything observable that a method does besides changing the
    dictionaries: lock operations, dictionary mutations (an item assignment
    or a [pop]), calls into the zenoh session, listener invocations. *)
Inductive Event :=
| EvAcquire (l : Lock)
| EvRelease (l : Lock)
| EvMutate (r : Registry)
| EvPut (keyexpr : KeyResult) (encoding : Encoding) (buf : bytes)
        (attachment : Attachment) (prio : Priority)
| EvGetCallback (keyexpr : KeyResult) (resp_callback : UListener)
                (v : Value) (timeout : Q)
| EvGetQueue (keyexpr : string) (v : Value) (attachment : option Attachment)
             (timeout : Q)
| EvDeclareSubscriber (keyexpr : KeyResult) (listener : UListener)
| EvDeclareQueryable (keyexpr : KeyResult) (topic : UUri) (listener : UListener)
| EvReply (q : Query) (s : Sample)
| EvOnReceive (listener : UListener) (m : UMessage).

Definition is_substrate_call (ev : Event) : bool :=
  match ev with
  | EvPut _ _ _ _ _ | EvGetCallback _ _ _ _ | EvGetQueue _ _ _ _
  | EvDeclareSubscriber _ _ | EvDeclareQueryable _ _ _ | EvReply _ _ => true
  | _ => false
  end.

Definition is_reply_call (ev : Event) : bool :=
  match ev with EvReply _ _ => true | _ => false end.

(** ** External collaborators *)

Record Env := mkEnv {
  (* up_client_zenoh.zenohutils.ZenohUtils *)
  uattributes_to_attachment : UAttributes -> option Attachment;
  attachment_to_uattributes : Attachment -> UStatus + UAttributes;
  map_zenoh_priority : UPriority -> option Priority;
  to_upayload_format : Encoding -> option UPayloadFormat;
  to_zenoh_key_string : option UUri -> KeyResult;
  (* protobuf *)
  SerializeToString_UUri : UUri -> bytes;
  SerializeToString_UUID : UUID -> bytes;
  str_UStatus : UStatus -> string;
  (* uprotocol: validators, builders *)
  Validators_validate : UMessageType -> UAttributes -> ValidationResult;
  UriValidator_validate : UUri -> ValidationResult;
  ValidationResult_bool : ValidationResult -> bool;
  is_rpc_response : UUri -> bool;
  is_rpc_method : UUri -> bool;
  UUID_factory : UUID;
  (* zenoh session: [Some msg] is an exception whose text is [msg] *)
  session_put_raises :
    KeyResult -> Encoding -> bytes -> Attachment -> Priority -> option string;
  session_get_raises : KeyResult -> Value -> Q -> option string;
  session_get_receiver :
    string -> Value -> option Attachment -> Q -> string + list Reply;
  session_declare_subscriber : KeyResult -> string + option Subscriber;
  session_declare_queryable : KeyResult -> string + Queryable;
  query_reply_raises : Query -> Sample -> option string
}.

(** ** Adapter state *)

(** [objects] is the store of [UUri] objects the adapter holds a reference
    to; [source_uuri] is the reference kept in the field of that name. *)
Record State := mkState {
  subscriber_map : gmap (string * positive) positive;
  queryable_map : gmap (string * positive) positive;
  query_map : gmap string Query;
  rpc_callback_map : gmap string positive;
  objects : gmap positive UUri;
  source_uuri : positive;
  trace : list Event
}.

Definition set_subscriber_map (f : gmap (string * positive) positive -> gmap (string * positive) positive) (st : State) : State :=
  mkState (f (subscriber_map st)) (queryable_map st) (query_map st)
          (rpc_callback_map st) (objects st) (source_uuri st) (trace st).

Definition set_queryable_map (f : gmap (string * positive) positive -> gmap (string * positive) positive) (st : State) : State :=
  mkState (subscriber_map st) (f (queryable_map st)) (query_map st)
          (rpc_callback_map st) (objects st) (source_uuri st) (trace st).

Definition set_query_map (f : gmap string Query -> gmap string Query) (st : State) : State :=
  mkState (subscriber_map st) (queryable_map st) (f (query_map st))
          (rpc_callback_map st) (objects st) (source_uuri st) (trace st).

Definition set_rpc_callback_map (f : gmap string positive -> gmap string positive) (st : State) : State :=
  mkState (subscriber_map st) (queryable_map st) (query_map st)
          (f (rpc_callback_map st)) (objects st) (source_uuri st) (trace st).

Definition set_objects (f : gmap positive UUri -> gmap positive UUri) (st : State) : State :=
  mkState (subscriber_map st) (queryable_map st) (query_map st)
          (rpc_callback_map st) (f (objects st)) (source_uuri st) (trace st).

Definition set_trace (f : list Event -> list Event) (st : State) : State :=
  mkState (subscriber_map st) (queryable_map st) (query_map st)
          (rpc_callback_map st) (objects st) (source_uuri st) (f (trace st)).

(** The four registries of a state, as one value. *)
Definition registries (st : State) :=
  (subscriber_map st, queryable_map st, query_map st, rpc_callback_map st).

(** ** The monad *)

Definition M (A : Type) : Type := State -> outcome A * State.

Definition ret {A} (a : A) : M A := fun st => (Return a, st).

Definition bind {A B} (m : M A) (k : A -> M B) : M B :=
  fun st =>
    match m st with
    | (Return a, st') => k a st'
    | (Raise e, st') => (Raise e, st')
    end.

Definition raise {A} (e : PyExn) : M A := fun st => (Raise e, st).

(** [try: body except Exception as e: handler e]. *)
Definition try_except {A} (body : M A) (handler : PyExn -> M A) : M A :=
  fun st =>
    match body st with
    | (Return a, st') => (Return a, st')
    | (Raise e, st') => handler e st'
    end.

Definition get_state : M State := fun st => (Return st, st).

Definition modify (f : State -> State) : M unit := fun st => (Return tt, f st).

Definition emit (ev : Event) : M unit := modify (set_trace (fun tr => (tr ++ [ev])%list)).

Declare Scope py_scope.
Delimit Scope py_scope with py.
Notation "x <- m ;; k" := (bind m (fun x => k))
  (at level 100, m at next level, k at level 200, right associativity) : py_scope.
Notation "m ;; k" := (bind m (fun _ => k))
  (at level 100, k at level 200, right associativity) : py_scope.
Local Open Scope py_scope.

(** [with lock: body]: the lock is released on the way out, also when the
    body raises. *)
Definition with_lock {A} (l : Lock) (body : M A) : M A :=
  emit (EvAcquire l) ;;
  fun st =>
    match body st with
    | (r, st') => (r, set_trace (fun tr => (tr ++ [EvRelease l])%list) st')
    end.

(** [raise UStatus(...)].  [UStatus] is a protobuf message class, not an
    exception class, so the [raise] statement itself fails with a
    [TypeError] and the status object is lost. *)
Definition raise_UStatus {A} (s : UStatus) : M A :=
  raise (TypeError "exceptions must derive from BaseException").

(** A [for] loop whose body may leave the function with [return v]
    ([Some v]) or go on to the next element ([None]). *)
Fixpoint for_each {A R} (body : A -> M (option R)) (xs : list A) : M (option R) :=
  match xs with
  | [] => ret None
  | x :: xs' =>
      r <- body x ;;
      match r with
      | Some v => ret (Some v)
      | None => for_each body xs'
      end
  end.

(** ** Dictionary operations *)

(** [d[k] = v] and [d.pop(k, None)] on each of the four dictionaries. *)
Definition subscriber_map_setitem (k : string * positive) (v : positive) : M unit :=
  emit (EvMutate reg_subscriber_map) ;;
  modify (set_subscriber_map (insert k v)).

Definition subscriber_map_pop (k : string * positive) : M (option positive) :=
  emit (EvMutate reg_subscriber_map) ;;
  st <- get_state ;;
  modify (set_subscriber_map (delete k)) ;;
  ret (subscriber_map st !! k).

Definition queryable_map_setitem (k : string * positive) (v : positive) : M unit :=
  emit (EvMutate reg_queryable_map) ;;
  modify (set_queryable_map (insert k v)).

Definition queryable_map_pop (k : string * positive) : M (option positive) :=
  emit (EvMutate reg_queryable_map) ;;
  st <- get_state ;;
  modify (set_queryable_map (delete k)) ;;
  ret (queryable_map st !! k).

Definition query_map_setitem (k : string) (v : Query) : M unit :=
  emit (EvMutate reg_query_map) ;;
  modify (set_query_map (insert k v)).

Definition query_map_pop (k : string) : M (option Query) :=
  emit (EvMutate reg_query_map) ;;
  st <- get_state ;;
  modify (set_query_map (delete k)) ;;
  ret (query_map st !! k).

Definition rpc_callback_map_setitem (k : string) (v : positive) : M unit :=
  emit (EvMutate reg_rpc_callback_map) ;;
  modify (set_rpc_callback_map (insert k v)).

Definition rpc_callback_map_pop (k : string) : M (option positive) :=
  emit (EvMutate reg_rpc_callback_map) ;;
  st <- get_state ;;
  modify (set_rpc_callback_map (delete k)) ;;
  ret (rpc_callback_map st !! k).

(** [listener.on_receive(msg)] *)
Definition on_receive (listener : UListener) (msg : UMessage) : M unit :=
  emit (EvOnReceive listener msg).

(** Truthiness of the values the source tests with [not x]. *)
Definition truthy_bytes (b : bytes) : bool :=
  match b with "" => false | _ => true end.

Definition truthy_attachment (a : option Attachment) : bool :=
  match a with Some b => truthy_bytes b | None => false end.

(** [UPAYLOAD_FORMAT_UNSPECIFIED] is the enum member numbered zero. *)
Definition truthy_format (f : option UPayloadFormat) : bool :=
  match f with
  | None | Some UPAYLOAD_FORMAT_UNSPECIFIED => false
  | Some _ => true
  end.

Definition is_set {A} (o : option A) : bool :=
  match o with Some _ => true | None => false end.

(** Truthiness of a message-typed field read, such as [topic.entity]:
    whether or not the field is set, the read hands back a message object,
    and protobuf messages define neither [__bool__] nor [__len__], so the
    object is truthy. *)
Definition truthy_message {A} (field : option A) : bool := true.

(** [field is None] for a field read off a protobuf message: never so. *)
Definition is_None {A} (field : option A) : bool := false.

(** The object a read of an address field hands back: the address when
    the field is set, the default instance, with nothing set, otherwise. *)
Definition read_UUri (field : option UUri) : UUri :=
  default (mkUUri None None None) field.

(** The number a read of [ttl] hands back: zero when the field is not
    set. *)
Definition read_ttl (field : option Z) : Z := default 0%Z field.

(** [UResourceBuilder.for_rpc_response()] *)
Definition for_rpc_response : UResource := mkUResource "rpc" "response" 0.

(** [u.resource.CopyFrom(r)] *)
Definition CopyFrom_resource (r : UResource) (u : UUri) : UUri :=
  mkUUri (authority u) (entity u) (Some r).

(** ** The adapter *)

(** [__init__]: empty dictionaries, and a fresh [UUri] object built from
    the authority and the entity, referenced by [source_uuri]. *)
Definition init (uauthority : UAuthority) (uentity : UEntity) : State :=
  mkState ∅ ∅ ∅ ∅
          {[ 1%positive := mkUUri (Some uauthority) (Some uentity) None ]}
          1%positive [].

Section Adapter.
Context (E : Env).

(** *** Calls into the zenoh session *)

Definition raise_if {A} (r : option string) (a : A) : M A :=
  match r with
  | Some msg => raise (ZenohError msg)
  | None => ret a
  end.

Definition session_put (keyexpr : KeyResult) (encoding : Encoding)
    (buf : bytes) (attachment : Attachment) (prio : Priority) : M unit :=
  emit (EvPut keyexpr encoding buf attachment prio) ;;
  raise_if (session_put_raises E keyexpr encoding buf attachment prio) tt.

Definition session_get_callback (keyexpr : KeyResult) (resp_callback : UListener)
    (v : Value) (timeout : Q) : M unit :=
  emit (EvGetCallback keyexpr resp_callback v timeout) ;;
  raise_if (session_get_raises E keyexpr v timeout) tt.

Definition session_get_queue (keyexpr : string) (v : Value)
    (attachment : option Attachment) (timeout : Q) : M (list Reply) :=
  emit (EvGetQueue keyexpr v attachment timeout) ;;
  match session_get_receiver E keyexpr v attachment timeout with
  | inl msg => raise (ZenohError msg)
  | inr receiver => ret receiver
  end.

Definition declare_subscriber (keyexpr : KeyResult) (listener : UListener)
  : M (option Subscriber) :=
  emit (EvDeclareSubscriber keyexpr listener) ;;
  match session_declare_subscriber E keyexpr with
  | inl msg => raise (ZenohError msg)
  | inr subscriber => ret subscriber
  end.

Definition declare_queryable (keyexpr : KeyResult) (topic : UUri)
    (listener : UListener) : M Queryable :=
  emit (EvDeclareQueryable keyexpr topic listener) ;;
  match session_declare_queryable E keyexpr with
  | inl msg => raise (ZenohError msg)
  | inr queryable => ret queryable
  end.

Definition query_reply (q : Query) (reply : Sample) : M unit :=
  emit (EvReply q reply) ;;
  raise_if (query_reply_raises E q reply) tt.

(** *** [get_response_uuri] *)

Definition get_response_uuri : M positive :=
  st <- get_state ;;
  let new_source := source_uuri st in
  modify (set_objects (alter (CopyFrom_resource for_rpc_response) new_source)) ;;
  ret new_source.

(** *** [send_publish_notification] *)

Definition send_publish_notification (zenoh_key : KeyResult)
    (payload : UPayload) (attributes : UAttributes) : M UStatus :=
  if negb (truthy_bytes (value payload)) then
    ret (mkUStatus INVALID_ARGUMENT "The data in UPayload should be Data::Value")
  else
    let buf := value payload in
    let attachment := uattributes_to_attachment E attributes in
    match attachment with
    | Some att =>
        if negb (truthy_bytes att) then
          ret (mkUStatus INVALID_ARGUMENT "Unable to transform UAttributes to attachment")
        else
          match map_zenoh_priority E (priority attributes) with
          | None => ret (mkUStatus INVALID_ARGUMENT "Unable to map to Zenoh priority")
          | Some prio =>
              try_except
                (let encoding := APP_CUSTOM_with_suffix (str_UPayloadFormat (format payload)) in
                 session_put zenoh_key encoding buf att prio ;;
                 ret (mkUStatus OK "Successfully sent data to Zenoh"))
                (fun e =>
                   ret (mkUStatus INTERNAL ("Unable to send with Zenoh: " ++ str_exn e)))
          end
    | None =>
        ret (mkUStatus INVALID_ARGUMENT "Unable to transform UAttributes to attachment")
    end.

(** *** [send_request] *)

(** The fallback written in the source for a time-to-live that is
    [None]. *)
Definition default_timeout : Q := 1000 # 1.

(** [attributes.ttl / 1000 if attributes.ttl is not None else 1000], as
    the exact quotient. *)
Definition effective_timeout (t : option Z) : Q :=
  if negb (is_None t) then read_ttl t # 1000 else default_timeout.

Definition send_request (zenoh_key : KeyResult) (payload : UPayload)
    (attributes : UAttributes) : M UStatus :=
  let data := value payload in
  if negb (truthy_bytes data) then
    ret (mkUStatus INVALID_ARGUMENT "The data in UPayload should be Data::Value")
  else
    match uattributes_to_attachment E attributes with
    | None => ret (mkUStatus INVALID_ARGUMENT "Unable to transform UAttributes to attachment")
    | Some attachment =>
        if is_None (source attributes) then
          ret (mkUStatus INVALID_ARGUMENT "Lack of source address")
        else
          st <- get_state ;;
          match rpc_callback_map st
                !! SerializeToString_UUri E (read_UUri (source attributes)) with
          | None => ret (mkUStatus INTERNAL "Unable to get callback")
          | Some resp_callback =>
              let ttl := effective_timeout (ttl attributes) in
              let v := mkValue (value payload)
                         (APP_CUSTOM_with_suffix (str_UPayloadFormat (format payload))) in
              session_get_callback zenoh_key resp_callback v ttl ;;
              ret (mkUStatus OK "Successfully sent rpc request to Zenoh")
          end
    end.

(** *** [send_response] *)

Definition send_response (payload : UPayload) (attributes : UAttributes) : M UStatus :=
  let attachment := uattributes_to_attachment E attributes in
  let reqid := reqid attributes in
  query <- query_map_pop (SerializeToString_UUID E reqid) ;;
  match query with
  | None => ret (mkUStatus INTERNAL "Query doesn't exist")
  | Some q =>
      let v := mkValue (value payload)
                 (APP_CUSTOM_with_suffix (str_UPayloadFormat (format payload))) in
      let reply := mkSample (key_expr q) v attachment in
      try_except
        (query_reply q reply ;;
         ret (mkUStatus OK "Successfully sent rpc response to Zenoh"))
        (fun e =>
           ret (mkUStatus INTERNAL ("Unable to reply with Zenoh: " ++ str_exn e)))
  end.

(** *** [register_publish_notification_listener] *)

(** The subscriber callback handed to the session is the closure over
    [listener]; the event records the listener it captures. *)
Definition register_publish_notification_listener (topic : UUri)
    (listener : UListener) : M UStatus :=
  let zenoh_key := to_zenoh_key_string E (Some topic) in
  returned <-
    try_except
      (subscriber <- declare_subscriber zenoh_key listener ;;
       match subscriber with
       | Some s =>
           with_lock subscriber_lock
             (subscriber_map_setitem (SerializeToString_UUri E topic, listener) s) ;;
           ret None
       | None =>
           ret (Some (mkUStatus INTERNAL "Unable to register callback with Zenoh"))
       end)
      (fun _ => ret (Some (mkUStatus INTERNAL "Unable to register callback with Zenoh"))) ;;
  match returned with
  | Some status => ret status
  | None => ret (mkUStatus OK "Successfully register callback with Zenoh")
  end.

(** *** [register_request_listener] *)

(** The body of the queryable callback, the closure over [self],
    [listener] and [topic]. *)
Definition queryable_callback (topic : UUri) (listener : UListener)
    (query : Query) : M (option UStatus) :=
  let attachment := query_attachment query in
  match attachment with
  | None => ret (Some (mkUStatus INTERNAL "Unable to get attachment"))
  | Some att =>
      if negb (truthy_attachment attachment) then
        ret (Some (mkUStatus INTERNAL "Unable to get attachment"))
      else
        match attachment_to_uattributes E att with
        | inl u_status =>
            ret (Some (mkUStatus INTERNAL
                   ("Unable to transform user attachment to UAttributes: "
                    ++ str_UStatus E u_status)))
        | inr u_attribute =>
            let finish (u_payload : UPayload) : M (option UStatus) :=
              let msg := mkUMessage u_attribute u_payload in
              query_map_setitem (SerializeToString_UUID E (id u_attribute)) query ;;
              on_receive listener msg ;;
              ret None in
            match query_value query with
            | Some v =>
                let encoding := to_upayload_format E (value_encoding v) in
                match encoding with
                | Some enc =>
                    if negb (truthy_format encoding) then
                      ret (Some (mkUStatus INTERNAL "Unable to get payload encoding"))
                    else finish (mkUPayload enc (value_payload v))
                | None =>
                    ret (Some (mkUStatus INTERNAL "Unable to get payload encoding"))
                end
            | None => finish (mkUPayload UPAYLOAD_FORMAT_UNSPECIFIED "")
            end
        end
    end.

Definition register_request_listener (topic : UUri) (listener : UListener)
  : M UStatus :=
  let zenoh_key := to_zenoh_key_string E (Some topic) in
  returned <-
    try_except
      (queryable <- declare_queryable zenoh_key topic listener ;;
       with_lock queryable_lock
         (queryable_map_setitem (SerializeToString_UUri E topic, listener) queryable) ;;
       ret None)
      (fun _ => ret (Some (mkUStatus INTERNAL "Unable to register callback with Zenoh"))) ;;
  match returned with
  | Some status => ret status
  | None => ret (mkUStatus OK "Successfully register callback with Zenoh")
  end.

(** *** [register_response_listener] *)

Definition register_response_listener (topic : UUri) (listener : UListener)
  : M UStatus :=
  with_lock rpc_callback_lock
    (rpc_callback_map_setitem (SerializeToString_UUri E topic) listener ;;
     ret (mkUStatus OK "Successfully register response callback with Zenoh")).

(** *** [send] *)

(** Each branch calls the validator of its kind as a statement: the
    [ValidationResult] it hands back is bound to nothing. *)
Definition send (message : UMessage) : M UStatus :=
  let payload := payload message in
  let attributes := attributes message in
  let msg_type := type attributes in
  match msg_type with
  | UMESSAGE_TYPE_PUBLISH =>
      let _ := Validators_validate E UMESSAGE_TYPE_PUBLISH attributes in
      let topic := source attributes in
      let zenoh_key := to_zenoh_key_string E topic in
      send_publish_notification zenoh_key payload attributes
  | UMESSAGE_TYPE_NOTIFICATION =>
      let _ := Validators_validate E UMESSAGE_TYPE_NOTIFICATION attributes in
      let topic := sink attributes in
      let zenoh_key := to_zenoh_key_string E topic in
      send_publish_notification zenoh_key payload attributes
  | UMESSAGE_TYPE_REQUEST =>
      let _ := Validators_validate E UMESSAGE_TYPE_REQUEST attributes in
      let topic := sink attributes in
      let zenoh_key := to_zenoh_key_string E topic in
      send_request zenoh_key payload attributes
  | UMESSAGE_TYPE_RESPONSE =>
      let _ := Validators_validate E UMESSAGE_TYPE_RESPONSE attributes in
      send_response payload attributes
  | _ =>
      ret (mkUStatus INVALID_ARGUMENT "Wrong Message type in UAttributes")
  end.

(** *** [register_listener] *)

#[global] Instance UCode_eq_dec : EqDecision UCode.
Proof. solve_decision. Defined.

Definition register_listener (topic : UUri) (listener : UListener) : M UStatus :=
  if truthy_message (authority topic) && negb (truthy_message (entity topic))
     && negb (truthy_message (resource topic)) then
    response_status <- register_response_listener topic listener ;;
    request_status <- register_request_listener topic listener ;;
    publish_status <- register_publish_notification_listener topic listener ;;
    if forallb (fun status => bool_decide (code status = OK))
         [response_status; request_status; publish_status] then
      ret (mkUStatus OK "Successfully register listener with Zenoh")
    else
      ret (mkUStatus INTERNAL "Unsuccessful registration")
  else
    let _ := UriValidator_validate E topic in
    status <-
      (if is_rpc_response E topic then register_response_listener topic listener
       else if is_rpc_method E topic then register_request_listener topic listener
       else register_publish_notification_listener topic listener) ;;
    if bool_decide (code status = OK) then
      ret (mkUStatus OK "Successfully register listener with Zenoh")
    else
      ret (mkUStatus INTERNAL "Unsuccessful registration").

(** *** [_remove_response_listener], [_remove_publish_listener],
    [_remove_request_listener] *)

Definition _remove_response_listener (topic : UUri) : M unit :=
  with_lock rpc_callback_lock
    (popped <- rpc_callback_map_pop (SerializeToString_UUri E topic) ;;
     match popped with
     | None => raise (ValueError "RPC response callback doesn't exist")
     | Some _ => ret tt
     end).

Definition _remove_publish_listener (topic : UUri) (listener : UListener) : M unit :=
  with_lock subscriber_lock
    (popped <- subscriber_map_pop (SerializeToString_UUri E topic, listener) ;;
     match popped with
     | None => raise (ValueError "Publish listener doesn't exist")
     | Some _ => ret tt
     end).

Definition _remove_request_listener (topic : UUri) (listener : UListener) : M unit :=
  with_lock queryable_lock
    (popped <- queryable_map_pop (SerializeToString_UUri E topic, listener) ;;
     match popped with
     | None => raise (ValueError "RPC request listener doesn't exist")
     | Some _ => ret tt
     end).

(** *** [unregister_listener] *)

(** The three flags chosen by the classification of the topic:
    (remove_pub_listener, remove_req_listener, remove_resp_listener). *)
Definition unregister_flags (topic : UUri) : bool * bool * bool :=
  if truthy_message (authority topic) && negb (truthy_message (entity topic))
     && negb (truthy_message (resource topic)) then
    (true, true, true)
  else
    let _ := UriValidator_validate E topic in
    if is_rpc_response E topic then (false, false, true)
    else if is_rpc_method E topic then (false, true, false)
    else (true, false, false).

Definition unregister_listener (topic : UUri) (listener : UListener) : M unit :=
  let '(remove_pub_listener, remove_req_listener, remove_resp_listener) :=
    unregister_flags topic in
  (if remove_resp_listener then _remove_response_listener topic else ret tt) ;;
  (if remove_req_listener then _remove_request_listener topic listener else ret tt) ;;
  (if remove_pub_listener then _remove_publish_listener topic listener else ret tt).

(** *** [invoke_method] *)

(** [UAttributesBuilder.request(source, sink, priority, ttl).build()] *)
Definition UAttributesBuilder_request (src : option UUri) (snk : UUri)
    (prio : UPriority) (t : Z) : UAttributes :=
  mkUAttributes (UUID_factory E) UMESSAGE_TYPE_REQUEST src (Some snk) prio
                (Some t) (mkUUID 0 0).

(** The result is [Some future] when a [return future] is reached and
    [None] when control leaves the function at the end of its body. *)
Definition invoke_method (topic : UUri) (payload : UPayload)
    (options : CallOptions) : M (option Future) :=
  try_except
    (if negb (ValidationResult_bool E (UriValidator_validate E topic)) then
       raise_UStatus (mkUStatus INVALID_ARGUMENT "Invalid UUri for invoke_method")
     else
       let zenoh_key_result := to_zenoh_key_string E (Some topic) in
       match zenoh_key_result with
       | KeyStatus _ =>
           raise_UStatus (mkUStatus INVALID_ARGUMENT "Unable to transform UUri to Zenoh key")
       | KeyString zenoh_key =>
           response_uuri <- get_response_uuri ;;
           st <- get_state ;;
           let uattributes :=
             UAttributesBuilder_request (objects st !! response_uuri) topic
               UPRIORITY_CS4 (options_ttl options) in
           let attachment := uattributes_to_attachment E uattributes in
           if negb (truthy_bytes (value payload)) then
             raise_UStatus (mkUStatus INVALID_ARGUMENT "The data in UPayload should be Data::Value")
           else
             let buf := value payload in
             let v := mkValue buf
                        (APP_CUSTOM_with_suffix (str_UPayloadFormat (format payload))) in
             receiver <- session_get_queue zenoh_key v attachment
                           (options_ttl options # 1000) ;;
             for_each
               (fun reply =>
                  match reply with
                  | ReplyOk ok =>
                      let encoding := to_upayload_format E (value_encoding (sample_value ok)) in
                      match encoding with
                      | Some enc =>
                          if negb (truthy_format encoding) then
                            raise_UStatus (mkUStatus INTERNAL "Error while parsing Zenoh encoding")
                          else
                            let umessage :=
                              mkUMessage uattributes
                                (mkUPayload enc (value_payload (sample_value ok))) in
                            let future := Future_result umessage in
                            ret (Some future)
                      | None =>
                          raise_UStatus (mkUStatus INTERNAL "Error while parsing Zenoh encoding")
                      end
                  | ReplyErr err =>
                      raise_UStatus
                        (mkUStatus INTERNAL ("Error while parsing Zenoh reply: " ++ err))
                  end)
               receiver
       end)
    (fun e => raise_UStatus (mkUStatus INTERNAL ("Unexpected error: " ++ str_exn e))).

End Adapter.

(** ** A concrete environment

    One instance of the external collaborators, used to run the adapter on
    explicit inputs.  The substrate's behaviour is chosen by four
    arguments: whether [put] raises, whether replying to a query raises,
    what the reply channel of a blocking query delivers, and whether
    declaring a queryable raises. *)
Module Scenario.

Definition serialize_uuri (u : UUri) : bytes :=
  match authority u with Some a => authority_name a | None => "" end
  ++ "/" ++
  match entity u with Some e => entity_name e | None => "" end
  ++ "/" ++
  match resource u with
  | Some r => resource_name r ++ "." ++ resource_instance r
  | None => ""
  end.

Definition serialize_uuid (u : UUID) : bytes :=
  String (Ascii.ascii_of_N (Z.to_N (msb u) mod 256))
    (String (Ascii.ascii_of_N (Z.to_N (lsb u) mod 256)) "").

Definition priority_table (p : UPriority) : option Priority :=
  match p with
  | UPRIORITY_UNSPECIFIED => None
  | UPRIORITY_CS0 => Some BACKGROUND
  | UPRIORITY_CS1 => Some DATA_LOW
  | UPRIORITY_CS2 => Some DATA
  | UPRIORITY_CS3 => Some DATA_HIGH
  | UPRIORITY_CS4 => Some INTERACTIVE_LOW
  | UPRIORITY_CS5 => Some INTERACTIVE_HIGH
  | UPRIORITY_CS6 => Some REAL_TIME
  end.

Definition format_table (e : Encoding) : option UPayloadFormat :=
  match e with
  | APP_CUSTOM_with_suffix "0" => Some UPAYLOAD_FORMAT_UNSPECIFIED
  | APP_CUSTOM_with_suffix "1" => Some UPAYLOAD_FORMAT_PROTOBUF_WRAPPED_IN_ANY
  | APP_CUSTOM_with_suffix "2" => Some UPAYLOAD_FORMAT_PROTOBUF
  | APP_CUSTOM_with_suffix "3" => Some UPAYLOAD_FORMAT_JSON
  | APP_CUSTOM_with_suffix "4" => Some UPAYLOAD_FORMAT_SOMEIP
  | APP_CUSTOM_with_suffix "5" => Some UPAYLOAD_FORMAT_SOMEIP_TLV
  | APP_CUSTOM_with_suffix "6" => Some UPAYLOAD_FORMAT_RAW
  | APP_CUSTOM_with_suffix "7" => Some UPAYLOAD_FORMAT_TEXT
  | _ => None
  end.

(** The kind-specific shape rules of the attribute validators: publish
    needs a source and no sink, notification a source and a sink, request
    a sink and a request id, response a response-correlation id. *)
Definition uuid_is_set (u : UUID) : bool :=
  negb ((msb u =? 0)%Z && (lsb u =? 0)%Z).

Definition shape_rules (k : UMessageType) (a : UAttributes) : ValidationResult :=
  let verdict (b : bool) (msg : string) :=
    if b then ValidationSuccess else ValidationFailure msg in
  match k with
  | UMESSAGE_TYPE_PUBLISH =>
      verdict (is_set (source a) && negb (is_set (sink a))) "Invalid publish attributes"
  | UMESSAGE_TYPE_NOTIFICATION =>
      verdict (is_set (source a) && is_set (sink a)) "Invalid notification attributes"
  | UMESSAGE_TYPE_REQUEST =>
      verdict (is_set (sink a) && uuid_is_set (id a)) "Invalid request attributes"
  | UMESSAGE_TYPE_RESPONSE =>
      verdict (uuid_is_set (reqid a)) "Invalid response attributes"
  | _ => ValidationFailure "Unknown kind"
  end.

Definition rpc_response_topic (u : UUri) : bool :=
  match resource u with
  | Some r => String.eqb (resource_name r) "rpc"
              && String.eqb (resource_instance r) "response"
  | None => false
  end.

Definition rpc_method_topic (u : UUri) : bool :=
  match resource u with
  | Some r => String.eqb (resource_name r) "rpc"
              && negb (String.eqb (resource_instance r) "response")
  | None => false
  end.

Definition vehicle : UAuthority := mkUAuthority "vehicle".
Definition body : UEntity := mkUEntity "body".

(** The adapter right after construction. *)
Definition fresh : State := init vehicle body.

Definition door_topic : UUri :=
  mkUUri (Some vehicle) (Some body) (Some (mkUResource "door" "front_left" 1)).

Definition method_topic : UUri :=
  mkUUri (Some vehicle) (Some body) (Some (mkUResource "rpc" "lock" 2)).

Definition response_topic : UUri :=
  mkUUri (Some vehicle) (Some body) (Some for_rpc_response).

Definition wildcard_topic : UUri := mkUUri (Some vehicle) None None.

Definition env (put_fails reply_fails : bool) (receiver : string + list Reply)
    (queryable_fails : bool) : Env :=
  {| uattributes_to_attachment := fun a => Some ("attrs:" ++ serialize_uuid (id a));
     attachment_to_uattributes := fun att =>
       if String.eqb att "garbled" then inl (mkUStatus INTERNAL "undecodable")
       else inr (mkUAttributes (mkUUID 3 4) UMESSAGE_TYPE_REQUEST
                   (Some response_topic) (Some method_topic) UPRIORITY_CS4
                   None (mkUUID 0 0));
     map_zenoh_priority := priority_table;
     to_upayload_format := format_table;
     to_zenoh_key_string := fun o =>
       match o with
       | Some u => KeyString (serialize_uuri u)
       | None => KeyStatus (mkUStatus INVALID_ARGUMENT "no topic")
       end;
     SerializeToString_UUri := serialize_uuri;
     SerializeToString_UUID := serialize_uuid;
     str_UStatus := message;
     Validators_validate := shape_rules;
     UriValidator_validate := fun _ => ValidationSuccess;
     ValidationResult_bool := fun _ => true;
     is_rpc_response := rpc_response_topic;
     is_rpc_method := rpc_method_topic;
     UUID_factory := mkUUID 7 7;
     session_put_raises := fun _ _ _ _ _ =>
       if put_fails then Some "put failed" else None;
     session_get_raises := fun _ _ _ => None;
     session_get_receiver := fun _ _ _ _ => receiver;
     session_declare_subscriber := fun _ => inr (Some 11%positive);
     session_declare_queryable := fun _ =>
       if queryable_fails then inl "declare failed" else inr 12%positive;
     query_reply_raises := fun _ _ =>
       if reply_fails then Some "reply failed" else None |}.

(** The substrate behaving well, with an empty reply channel. *)
Definition quiet : Env := env false false (inr []) false.

Definition some_payload : UPayload := mkUPayload UPAYLOAD_FORMAT_PROTOBUF "data".

Definition pending : Query :=
  mkQuery "vehicle/body/rpc.lock" (Some "attrs") None.

(** A publish of the door topic, well-formed for its kind. *)
Definition publish_message : UMessage :=
  mkUMessage
    (mkUAttributes (mkUUID 1 1) UMESSAGE_TYPE_PUBLISH (Some door_topic) None
       UPRIORITY_CS1 None (mkUUID 0 0))
    some_payload.

(** A publish that also names a sink, against the publish shape rules. *)
Definition publish_with_sink : UMessage :=
  mkUMessage
    (mkUAttributes (mkUUID 1 2) UMESSAGE_TYPE_PUBLISH (Some door_topic)
       (Some method_topic) UPRIORITY_CS1 None (mkUUID 0 0))
    some_payload.

(** A request to the method topic, answered at the response topic. *)
Definition request_message (t : option Z) : UMessage :=
  mkUMessage
    (mkUAttributes (mkUUID 3 4) UMESSAGE_TYPE_REQUEST (Some response_topic)
       (Some method_topic) UPRIORITY_CS4 t (mkUUID 0 0))
    some_payload.

(** The response to the request numbered (3, 4). *)
Definition response_message : UMessage :=
  mkUMessage
    (mkUAttributes (mkUUID 9 9) UMESSAGE_TYPE_RESPONSE (Some method_topic)
       (Some response_topic) UPRIORITY_CS4 None (mkUUID 3 4))
    some_payload.

(** The adapter with the query of request (3, 4) pending. *)
Definition with_pending : State :=
  set_query_map (insert (serialize_uuid (mkUUID 3 4)) pending) fresh.

(** The adapter with listener 5 registered for responses at the response
    topic. *)
Definition with_response_listener : State :=
  set_rpc_callback_map (insert (serialize_uuri response_topic) 5%positive) fresh.

End Scenario.

(** The environment [E] with the attribute validators replaced. *)
Definition with_validators
    (v : UMessageType -> UAttributes -> ValidationResult) (E : Env) : Env :=
  {| uattributes_to_attachment := uattributes_to_attachment E;
     attachment_to_uattributes := attachment_to_uattributes E;
     map_zenoh_priority := map_zenoh_priority E;
     to_upayload_format := to_upayload_format E;
     to_zenoh_key_string := to_zenoh_key_string E;
     SerializeToString_UUri := SerializeToString_UUri E;
     SerializeToString_UUID := SerializeToString_UUID E;
     str_UStatus := str_UStatus E;
     Validators_validate := v;
     UriValidator_validate := UriValidator_validate E;
     ValidationResult_bool := ValidationResult_bool E;
     is_rpc_response := is_rpc_response E;
     is_rpc_method := is_rpc_method E;
     UUID_factory := UUID_factory E;
     session_put_raises := session_put_raises E;
     session_get_raises := session_get_raises E;
     session_get_receiver := session_get_receiver E;
     session_declare_subscriber := session_declare_subscriber E;
     session_declare_queryable := session_declare_queryable E;
     query_reply_raises := query_reply_raises E |}.

(** ** Lock discipline along a trace *)

(** The lock under which each dictionary is mutated.  [query_map] has no
    lock: [__init__] creates three locks. *)
Definition lock_of (r : Registry) : option Lock :=
  match r with
  | reg_subscriber_map => Some subscriber_lock
  | reg_queryable_map => Some queryable_lock
  | reg_rpc_callback_map => Some rpc_callback_lock
  | reg_query_map => None
  end.

(** Replays a trace from a stack of held locks.  The result is [None] when
    a dictionary guarded by a lock is mutated while that lock is not held,
    or when a lock other than the innermost held one is released; it is the
    stack of locks held at the end otherwise. *)
Fixpoint locks_after (guard : Registry -> option Lock) (held : list Lock)
    (tr : list Event) : option (list Lock) :=
  match tr with
  | [] => Some held
  | EvAcquire l :: tr' => locks_after guard (l :: held) tr'
  | EvRelease l :: tr' =>
      match held with
      | l' :: held' =>
          if bool_decide (l = l') then locks_after guard held' tr' else None
      | [] => None
      end
  | EvMutate r :: tr' =>
      match guard r with
      | Some l =>
          if bool_decide (l ∈ held) then locks_after guard held tr' else None
      | None => locks_after guard held tr'
      end
  | _ :: tr' => locks_after guard held tr'
  end.

(** The events a computation appended to the trace. *)
Definition new_events (st st' : State) : list Event :=
  drop (length (trace st)) (trace st').

(** A computation keeps the lock discipline when, run with the locks
    [held], it only appends events, mutates a guarded dictionary only with
    its lock held, and gives back every lock it took. *)
Definition disciplined {A} (held : list Lock) (m : M A) : Prop :=
  forall st, exists new,
    trace (m st).2 = (trace st ++ new)%list
    /\ locks_after lock_of held new = Some held.

(** ** Auxiliary notions used in the statements *)

(** What the [put] of a publish or notification send answers, when the
    send gets as far as the call. *)
Definition publish_put_raises (E : Env) (zenoh_key : KeyResult)
    (payload : UPayload) (attributes : UAttributes) : option string :=
  match uattributes_to_attachment E attributes,
        map_zenoh_priority E (priority attributes) with
  | Some att, Some prio =>
      session_put_raises E zenoh_key
        (APP_CUSTOM_with_suffix (str_UPayloadFormat (format payload)))
        (value payload) att prio
  | _, _ => None
  end.

(** The key derived by [send] for a publish or a notification. *)
Definition publish_key (E : Env) (a : UAttributes) : KeyResult :=
  match type a with
  | UMESSAGE_TYPE_PUBLISH => to_zenoh_key_string E (source a)
  | _ => to_zenoh_key_string E (sink a)
  end.



(** The topic has the wildcard shape: an authority is set, and neither an
    entity nor a resource. *)
Definition wildcard (topic : UUri) : Prop :=
  is_set (authority topic) = true /\ is_set (entity topic) = false
  /\ is_set (resource topic) = false.

(** The payload the callback builds for a query: from the query's value
    when it has one whose encoding maps to a format other than the
    unspecified one, and the empty payload of unspecified format when the
    query has no value. *)
Definition callback_payload (E : Env) (query : Query) (u_payload : UPayload) : Prop :=
  match query_value query with
  | Some v =>
      exists enc,
        to_upayload_format E (value_encoding v) = Some enc
        /\ enc <> UPAYLOAD_FORMAT_UNSPECIFIED
        /\ u_payload = mkUPayload enc (value_payload v)
  | None => u_payload = mkUPayload UPAYLOAD_FORMAT_UNSPECIFIED ""
  end.

(** The request attributes built by the call: a fresh id, kind request,
    the stored source address (with the response resource) as source, the
    topic as sink, priority CS4 and the caller's time-to-live. *)
Definition invoke_attributes (E : Env) (topic : UUri) (options : CallOptions)
    (st : State) : UAttributes :=
  mkUAttributes (UUID_factory E) UMESSAGE_TYPE_REQUEST
    (CopyFrom_resource for_rpc_response <$> objects st !! source_uuri st)
    (Some topic) UPRIORITY_CS4 (Some (options_ttl options)) (mkUUID 0 0).

(** ** Variations of an environment *)

(** The environment [E] with the reply channel of every blocking query
    replaced. *)
Definition with_receiver
    (receiver : string + list Reply) (E : Env) : Env :=
  {| uattributes_to_attachment := uattributes_to_attachment E;
     attachment_to_uattributes := attachment_to_uattributes E;
     map_zenoh_priority := map_zenoh_priority E;
     to_upayload_format := to_upayload_format E;
     to_zenoh_key_string := to_zenoh_key_string E;
     SerializeToString_UUri := SerializeToString_UUri E;
     SerializeToString_UUID := SerializeToString_UUID E;
     str_UStatus := str_UStatus E;
     Validators_validate := Validators_validate E;
     UriValidator_validate := UriValidator_validate E;
     ValidationResult_bool := ValidationResult_bool E;
     is_rpc_response := is_rpc_response E;
     is_rpc_method := is_rpc_method E;
     UUID_factory := UUID_factory E;
     session_put_raises := session_put_raises E;
     session_get_raises := session_get_raises E;
     session_get_receiver := fun _ _ _ _ => receiver;
     session_declare_subscriber := session_declare_subscriber E;
     session_declare_queryable := session_declare_queryable E;
     query_reply_raises := query_reply_raises E |}.

(** The environment [E] with the answer of the asynchronous query call
    replaced. *)
Definition with_get_raises
    (answer : option string) (E : Env) : Env :=
  {| uattributes_to_attachment := uattributes_to_attachment E;
     attachment_to_uattributes := attachment_to_uattributes E;
     map_zenoh_priority := map_zenoh_priority E;
     to_upayload_format := to_upayload_format E;
     to_zenoh_key_string := to_zenoh_key_string E;
     SerializeToString_UUri := SerializeToString_UUri E;
     SerializeToString_UUID := SerializeToString_UUID E;
     str_UStatus := str_UStatus E;
     Validators_validate := Validators_validate E;
     UriValidator_validate := UriValidator_validate E;
     ValidationResult_bool := ValidationResult_bool E;
     is_rpc_response := is_rpc_response E;
     is_rpc_method := is_rpc_method E;
     UUID_factory := UUID_factory E;
     session_put_raises := session_put_raises E;
     session_get_raises := fun _ _ _ => answer;
     session_get_receiver := session_get_receiver E;
     session_declare_subscriber := session_declare_subscriber E;
     session_declare_queryable := session_declare_queryable E;
     query_reply_raises := query_reply_raises E |}.

(** ** Proofs *)

Ltac unfold_monad :=
  repeat (progress unfold bind, ret, raise, raise_UStatus, raise_if,
            try_except, modify, emit, get_state, with_lock in * ).

Ltac unfold_dict :=
  unfold subscriber_map_setitem, subscriber_map_pop, queryable_map_setitem,
    queryable_map_pop, query_map_setitem, query_map_pop,
    rpc_callback_map_setitem, rpc_callback_map_pop, on_receive in *.

Ltac unfold_session :=
  unfold session_put, session_get_callback, session_get_queue,
    declare_subscriber, declare_queryable, query_reply in *.

(** *** The stored source address *)

Lemma get_response_uuri_run (st : State) :
  get_response_uuri st =
  (Return (source_uuri st),
   set_objects (alter (CopyFrom_resource for_rpc_response) (source_uuri st)) st).
Proof. reflexivity. Qed.

(** The steps of [invoke_method] after the source address was fetched
    leave the object store alone. *)
Lemma invoke_method_store (E : Env) topic payload options st zenoh_key :
  ValidationResult_bool E (UriValidator_validate E topic) = true ->
  to_zenoh_key_string E (Some topic) = KeyString zenoh_key ->
  let st' := (invoke_method E topic payload options st).2 in
  source_uuri st' = source_uuri st
  /\ objects st' = alter (CopyFrom_resource for_rpc_response) (source_uuri st) (objects st).
Proof.
  intros Hvalid Hkey. unfold invoke_method. rewrite Hvalid, Hkey.
  unfold get_response_uuri, session_get_queue. unfold_monad. simpl.
  destruct (truthy_bytes (value payload)); simpl; [|done].
  destruct (session_get_receiver E _ _ _ _) as [msg|receiver]; simpl; [done|].
  destruct receiver as [|[ok|err] rest]; simpl; [done| |done].
  unfold_monad.
  destruct (to_upayload_format E _) as [enc|]; simpl; [|done].
  destruct enc; simpl; done.
Qed.

(** [C10] [get_response_uuri] hands back the very reference kept in
    [source_uuri]: no object is created, and the object the adapter stores
    has the RPC-response resource installed afterwards, so the adapter's
    state differs from what it was unless that resource was already there.
    A call of [invoke_method] that gets past topic validation and key
    derivation leaves the stored source address in that mutated form. *)
Theorem get_response_uuri_aliases_source (E : Env) (topic : UUri)
    (payload : UPayload) (options : CallOptions) (st : State) (u : UUri) :
  objects st !! source_uuri st = Some u ->
  let stored := CopyFrom_resource for_rpc_response u in
  (let r := get_response_uuri st in
   r.1 = Return (source_uuri st)
   /\ source_uuri r.2 = source_uuri st
   /\ dom (objects r.2) = dom (objects st)
   /\ objects r.2 !! source_uuri st = Some stored
   /\ registries r.2 = registries st
   /\ (resource u <> Some for_rpc_response -> r.2 <> st))
  /\ (forall zenoh_key,
        ValidationResult_bool E (UriValidator_validate E topic) = true ->
        to_zenoh_key_string E (Some topic) = KeyString zenoh_key ->
        let st' := (invoke_method E topic payload options st).2 in
        source_uuri st' = source_uuri st
        /\ objects st' !! source_uuri st = Some stored).
Proof.
  intros Hu stored. split.
  - rewrite get_response_uuri_run. simpl. repeat split.
    + apply set_eq. intros x. rewrite !elem_of_dom, lookup_alter.
      case_decide; subst; [rewrite Hu|]; simpl; split; eauto.
    + rewrite lookup_alter_eq, Hu. reflexivity.
    + intros Hres Heq.
      assert (Hobj : objects
                (set_objects (alter (CopyFrom_resource for_rpc_response)
                                (source_uuri st)) st) !! source_uuri st
              = Some u) by (rewrite Heq; exact Hu).
      simpl in Hobj. rewrite lookup_alter_eq, Hu in Hobj. simpl in Hobj.
      injection Hobj as Hobj. apply Hres. rewrite <- Hobj. reflexivity.
  - intros zenoh_key Hvalid Hkey.
    destruct (invoke_method_store E topic payload options st zenoh_key Hvalid Hkey)
      as [Hsrc Hobjs].
    simpl. split; [exact Hsrc|].
    rewrite Hobjs, lookup_alter_eq, Hu. reflexivity.
Qed.

Lemma get_response_uuri_aliases_source_witness :
  objects Scenario.fresh !! source_uuri Scenario.fresh
  = Some (mkUUri (Some Scenario.vehicle) (Some Scenario.body) None)
  /\ (get_response_uuri Scenario.fresh).1 = Return (source_uuri Scenario.fresh).
Proof.
  split; [reflexivity|].
  exact (proj1 (proj1 (get_response_uuri_aliases_source Scenario.quiet
                         Scenario.method_topic Scenario.some_payload
                         (mkCallOptions 1000) Scenario.fresh
                         (mkUUri (Some Scenario.vehicle) (Some Scenario.body) None)
                         eq_refl))).
Defined.

(** *** The blocking call *)

(** What [invoke_method] does once the query was issued, by cases on the
    reply channel. *)
Lemma invoke_method_run (E : Env) topic payload options st zenoh_key :
  ValidationResult_bool E (UriValidator_validate E topic) = true ->
  to_zenoh_key_string E (Some topic) = KeyString zenoh_key ->
  truthy_bytes (value payload) = true ->
  let st1 := (get_response_uuri st).2 in
  let uattributes :=
    UAttributesBuilder_request E (objects st1 !! source_uuri st) topic
      UPRIORITY_CS4 (options_ttl options) in
  let v := mkValue (value payload)
             (APP_CUSTOM_with_suffix (str_UPayloadFormat (format payload))) in
  let attachment := uattributes_to_attachment E uattributes in
  let timeout := options_ttl options # 1000 in
  (invoke_method E topic payload options st).1 =
  match session_get_receiver E zenoh_key v attachment timeout with
  | inl _ => Raise (TypeError "exceptions must derive from BaseException")
  | inr [] => Return None
  | inr (ReplyErr _ :: _) => Raise (TypeError "exceptions must derive from BaseException")
  | inr (ReplyOk ok :: _) =>
      let encoding := to_upayload_format E (value_encoding (sample_value ok)) in
      match encoding with
      | Some enc =>
          if truthy_format encoding then
            Return (Some (Future_result
                            (mkUMessage uattributes
                               (mkUPayload enc (value_payload (sample_value ok))))))
          else Raise (TypeError "exceptions must derive from BaseException")
      | None => Raise (TypeError "exceptions must derive from BaseException")
      end
  end.
Proof.
  intros Hvalid Hkey Hdata. unfold invoke_method. rewrite Hvalid, Hkey.
  unfold get_response_uuri, session_get_queue. unfold_monad. simpl.
  rewrite Hdata. simpl.
  destruct (session_get_receiver E _ _ _ _) as [msg|receiver]; simpl; [done|].
  destruct receiver as [|[ok|err] rest]; simpl; [done| |done].
  unfold_monad.
  destruct (to_upayload_format E _) as [enc|]; simpl; [|done].
  destruct enc; simpl; done.
Qed.

(** Whatever the inputs, [invoke_method] hands back a future holding a
    message, hands back [None], or raises [TypeError]. *)
Lemma invoke_method_outcomes (E : Env) topic payload options st :
  let r := (invoke_method E topic payload options st).1 in
  (exists m, r = Return (Some (Future_result m)))
  \/ r = Return None
  \/ r = Raise (TypeError "exceptions must derive from BaseException").
Proof.
  unfold invoke_method.
  destruct (ValidationResult_bool E (UriValidator_validate E topic)); simpl;
    [|unfold_monad; simpl; auto].
  destruct (to_zenoh_key_string E (Some topic)) as [zenoh_key|s]; simpl;
    [|unfold_monad; simpl; auto].
  unfold get_response_uuri, session_get_queue. unfold_monad. simpl.
  destruct (truthy_bytes (value payload)); simpl; [|auto].
  destruct (session_get_receiver E _ _ _ _) as [msg|receiver]; simpl; [auto|].
  destruct receiver as [|[ok|err] rest]; simpl; [auto| |auto].
  unfold_monad.
  destruct (to_upayload_format E _) as [enc|]; simpl; [|auto].
  destruct enc; simpl; eauto.
Qed.

(** The part of the behaviour that is as the specification has it: when
    the first reply is a success whose encoding decodes, the call hands
    back one future holding the message built from that reply, whatever
    replies follow it. *)
Lemma invoke_method_first_reply (E : Env) topic payload options st zenoh_key
    ok enc rest :
  ValidationResult_bool E (UriValidator_validate E topic) = true ->
  to_zenoh_key_string E (Some topic) = KeyString zenoh_key ->
  truthy_bytes (value payload) = true ->
  (forall v att t, session_get_receiver E zenoh_key v att t = inr (ReplyOk ok :: rest)) ->
  to_upayload_format E (value_encoding (sample_value ok)) = Some enc ->
  enc <> UPAYLOAD_FORMAT_UNSPECIFIED ->
  exists uattributes,
    (invoke_method E topic payload options st).1
    = Return (Some (Future_result
                      (mkUMessage uattributes
                         (mkUPayload enc (value_payload (sample_value ok)))))).
Proof.
  intros Hvalid Hkey Hdata Hrecv Henc Hne.
  rewrite (invoke_method_run E topic payload options st zenoh_key Hvalid Hkey Hdata).
  simpl. rewrite Hrecv, Henc. eexists. destruct enc; simpl; done.
Qed.

(** [C1] When the time-to-live expires with no reply, the reply channel is
    empty: the loop body never runs, control leaves [invoke_method] at the
    end of its body and the caller gets [None], not a future.  On no input
    does [invoke_method] hand back a future that carries a failure status. *)
Theorem invoke_method_no_reply_no_future (E : Env) (topic : UUri)
    (payload : UPayload) (options : CallOptions) (st : State)
    (zenoh_key : string) :
  ValidationResult_bool E (UriValidator_validate E topic) = true ->
  to_zenoh_key_string E (Some topic) = KeyString zenoh_key ->
  truthy_bytes (value payload) = true ->
  (forall v att t, session_get_receiver E zenoh_key v att t = inr []) ->
  (invoke_method E topic payload options st).1 = Return None
  /\ forall (E' : Env) topic' payload' options' st' s,
       (invoke_method E' topic' payload' options' st').1
       <> Return (Some (Future_exception s)).
Proof.
  intros Hvalid Hkey Hdata Hrecv. split.
  - rewrite (invoke_method_run E topic payload options st zenoh_key Hvalid Hkey Hdata).
    simpl. rewrite Hrecv. reflexivity.
  - intros E' topic' payload' options' st' s Heq.
    destruct (invoke_method_outcomes E' topic' payload' options' st')
      as [[m Hm]|[Hn|Hr]]; rewrite Heq in *; discriminate.
Qed.

Lemma invoke_method_no_reply_no_future_witness :
  (invoke_method Scenario.quiet Scenario.method_topic Scenario.some_payload
     (mkCallOptions 1000) Scenario.fresh).1 = Return None.
Proof.
  exact (proj1 (invoke_method_no_reply_no_future Scenario.quiet
                  Scenario.method_topic Scenario.some_payload
                  (mkCallOptions 1000) Scenario.fresh "vehicle/body/rpc.lock"
                  eq_refl eq_refl eq_refl (fun _ _ _ => eq_refl))).
Defined.

(** *** Outbound sends *)

Lemma new_events_app (st st' : State) (new : list Event) :
  trace st' = (trace st ++ new)%list -> new_events st st' = new.
Proof. intros H. unfold new_events. rewrite H. apply drop_app_length. Qed.

(** [send_publish_notification] never touches a dictionary. *)
Lemma send_publish_notification_registries (E : Env) key payload attributes st :
  registries (send_publish_notification E key payload attributes st).2
  = registries st.
Proof.
  unfold send_publish_notification, session_put. unfold_monad.
  destruct (truthy_bytes (value payload)); simpl; [|done].
  destruct (uattributes_to_attachment E attributes) as [att|]; simpl; [|done].
  destruct (truthy_bytes att); simpl; [|done].
  destruct (map_zenoh_priority E (priority attributes)); simpl; [|done].
  destruct (session_put_raises E _ _ _ _ _); done.
Qed.

(** [send_publish_notification] always hands back a status. *)
Lemma send_publish_notification_returns (E : Env) key payload attributes st :
  exists status,
    (send_publish_notification E key payload attributes st).1 = Return status.
Proof.
  unfold send_publish_notification, session_put. unfold_monad.
  destruct (truthy_bytes (value payload)); simpl; [|eauto].
  destruct (uattributes_to_attachment E attributes) as [att|]; simpl; [|eauto].
  destruct (truthy_bytes att); simpl; [|eauto].
  destruct (map_zenoh_priority E (priority attributes)); simpl; [|eauto].
  destruct (session_put_raises E _ _ _ _ _); simpl; eauto.
Qed.

(** [send_request] never touches a dictionary either. *)
Lemma send_request_registries (E : Env) key payload attributes st :
  registries (send_request E key payload attributes st).2 = registries st.
Proof.
  unfold send_request, session_get_callback. unfold_monad.
  destruct (truthy_bytes (value payload)); simpl; [|done].
  destruct (uattributes_to_attachment E attributes) as [att|]; simpl; [|done].
  destruct (rpc_callback_map st !! _); simpl; [|done].
  destruct (session_get_raises E _ _ _); done.
Qed.

(** The whole of [send_response], by cases on the pending-query lookup
    and on what the substrate answers to the reply. *)
Lemma send_response_run (E : Env) payload attributes st :
  let k := SerializeToString_UUID E (reqid attributes) in
  let popped :=
    set_query_map (delete k)
      (set_trace (fun tr => (tr ++ [EvMutate reg_query_map])%list) st) in
  send_response E payload attributes st =
  match query_map st !! k with
  | None => (Return (mkUStatus INTERNAL "Query doesn't exist"), popped)
  | Some q =>
      let reply :=
        mkSample (key_expr q)
          (mkValue (value payload)
             (APP_CUSTOM_with_suffix (str_UPayloadFormat (format payload))))
          (uattributes_to_attachment E attributes) in
      let replied := set_trace (fun tr => (tr ++ [EvReply q reply])%list) popped in
      match query_reply_raises E q reply with
      | Some msg =>
          (Return (mkUStatus INTERNAL ("Unable to reply with Zenoh: " ++ msg)),
           replied)
      | None =>
          (Return (mkUStatus OK "Successfully sent rpc response to Zenoh"),
           replied)
      end
  end.
Proof.
  unfold send_response, query_map_pop, query_reply. unfold_monad. simpl.
  destruct (query_map st !! _) as [q|]; simpl; [|done].
  destruct (query_reply_raises E _ _); done.
Qed.

(** [C6] A publish or notification message: [send] hands back a status;
    with non-empty payload bytes the status is ok exactly when the
    attachment encoding and the priority mapping succeed and the
    substrate's [put] does not raise.  When the payload and the codec pass,
    the substrate is called exactly once, with a [put] on the derived key
    carrying the payload bytes, the encoded attachment and the mapped
    priority, and the status is ok or internal as that call returns or
    raises.  An empty payload or a codec failure gives invalid-argument and
    leaves the whole state, trace of substrate calls included, as it was.
    In every case the four registries are what they were. *)
Theorem send_publish_notification_status (E : Env) (message : UMessage)
    (st : State) :
  type (attributes message) = UMESSAGE_TYPE_PUBLISH
  \/ type (attributes message) = UMESSAGE_TYPE_NOTIFICATION ->
  let a := attributes message in
  let p := payload message in
  let r := send E message st in
  let codec_ok :=
    truthy_attachment (uattributes_to_attachment E a)
    && is_set (map_zenoh_priority E (priority a)) in
  let put_raises := publish_put_raises E (publish_key E a) p a in
  exists status,
    r.1 = Return status
    /\ registries r.2 = registries st
    /\ (truthy_bytes (value p) = true ->
        (code status = OK <-> codec_ok = true /\ put_raises = None))
    /\ (truthy_bytes (value p) = false \/ codec_ok = false ->
        code status = INVALID_ARGUMENT /\ r.2 = st)
    /\ (truthy_bytes (value p) = true -> codec_ok = true ->
        put_raises <> None -> code status = INTERNAL)
    /\ (truthy_bytes (value p) = true -> codec_ok = true ->
        exists att prio,
          uattributes_to_attachment E a = Some att
          /\ map_zenoh_priority E (priority a) = Some prio
          /\ put_raises
             = session_put_raises E (publish_key E a)
                 (APP_CUSTOM_with_suffix (str_UPayloadFormat (format p)))
                 (value p) att prio
          /\ new_events st r.2
             = [EvPut (publish_key E a)
                  (APP_CUSTOM_with_suffix (str_UPayloadFormat (format p)))
                  (value p) att prio])
    /\ (code status = OK \/ code status = INTERNAL ->
        List.filter is_substrate_call (new_events st r.2) <> []).
Proof.
  intros Hkind a p r codec_ok put_raises.
  assert (Hsend : r = send_publish_notification E (publish_key E a) p a st).
  { subst r a p. unfold send, publish_key.
    destruct Hkind as [-> | ->]; reflexivity. }
  subst codec_ok put_raises. rewrite Hsend. clear Hsend r Hkind.
  generalize (publish_key E a). intros key.
  unfold send_publish_notification, publish_put_raises, session_put.
  unfold_monad.
  destruct (truthy_bytes (value p)); simpl;
    [|eexists; split; [reflexivity|];
      intuition (try done; try discriminate)].
  destruct (uattributes_to_attachment E a) as [att|]; simpl;
    [|eexists; split; [reflexivity|];
      intuition (try done; try discriminate)].
  destruct (truthy_bytes att); simpl;
    [|eexists; split; [reflexivity|];
      intuition (try done; try discriminate)].
  destruct (map_zenoh_priority E (priority a)) as [prio|]; simpl;
    [|eexists; split; [reflexivity|];
      intuition (try done; try discriminate)].
  assert (Hnew : forall st1 : State,
            trace st1 = (trace st ++ [EvPut key
                 (APP_CUSTOM_with_suffix (str_UPayloadFormat (format p)))
                 (value p) att prio])%list ->
            new_events st st1
            = [EvPut key
                 (APP_CUSTOM_with_suffix (str_UPayloadFormat (format p)))
                 (value p) att prio])
    by (intros st1 Hst1; apply (new_events_app _ _ _ Hst1)).
  destruct (session_put_raises E _ _ _ _ _) as [msg|] eqn:Hput; simpl;
    eexists; (split; [reflexivity|]);
    (split; [reflexivity|]);
    (split; [intuition (try done; try discriminate)|]);
    (split; [intuition (try done; try discriminate)|]);
    (split; [intuition (try done; try discriminate)|]);
    (split;
     [intros _ _; exists att, prio;
      split; [reflexivity|]; split; [reflexivity|];
      split; [symmetry; exact Hput | apply Hnew; reflexivity]
     |intros _; rewrite Hnew by reflexivity; simpl; discriminate]).
Qed.

Lemma send_publish_notification_status_witness :
  exists status,
    (send Scenario.quiet Scenario.publish_message Scenario.fresh).1
    = Return status
    /\ registries (send Scenario.quiet Scenario.publish_message Scenario.fresh).2
       = registries Scenario.fresh.
Proof.
  destruct (send_publish_notification_status Scenario.quiet
              Scenario.publish_message Scenario.fresh (or_introl eq_refl))
    as (status & Hr & Hregs & _).
  exists status. split; [exact Hr | exact Hregs].
Defined.

(** [C3] A response message: when no pending query is tracked under its
    correlation id, [send] hands back the internal status, the only event
    is the [pop] on the dictionary, so no reply call reaches the
    substrate, and the registries are what they were; when a query is
    tracked, the entry is gone afterwards, the dictionary was mutated once,
    and one reply call was issued on that query with the query's own key. *)
Theorem send_response_pending_query (E : Env) (message : UMessage) (st : State) :
  type (attributes message) = UMESSAGE_TYPE_RESPONSE ->
  let a := attributes message in
  let p := payload message in
  let k := SerializeToString_UUID E (reqid a) in
  let r := send E message st in
  match query_map st !! k with
  | None =>
      r.1 = Return (mkUStatus INTERNAL "Query doesn't exist")
      /\ new_events st r.2 = [EvMutate reg_query_map]
      /\ List.filter is_substrate_call (new_events st r.2) = []
      /\ registries r.2 = registries st
  | Some q =>
      let reply :=
        mkSample (key_expr q)
          (mkValue (value p)
             (APP_CUSTOM_with_suffix (str_UPayloadFormat (format p))))
          (uattributes_to_attachment E a) in
      (exists status, r.1 = Return status)
      /\ query_map r.2 = delete k (query_map st)
      /\ query_map r.2 !! k = None
      /\ new_events st r.2 = [EvMutate reg_query_map; EvReply q reply]
      /\ sample_key_expr reply = key_expr q
  end.
Proof.
  intros Hkind a p k r.
  assert (Hsend : r = send_response E p a st).
  { subst r a p. unfold send. rewrite Hkind. reflexivity. }
  rewrite Hsend, send_response_run. fold k.
  destruct (query_map st !! k) as [q|] eqn:Hq.
  - simpl. destruct (query_reply_raises E q _) as [msg|]; simpl;
      (split; [eauto|]); (split; [reflexivity|]);
      (split; [apply lookup_delete_eq|]);
      (split; [|reflexivity]);
      apply new_events_app; simpl; rewrite <- app_assoc; reflexivity.
  - simpl. assert (Hnew : new_events st
      (set_query_map (delete k)
         (set_trace (fun tr => (tr ++ [EvMutate reg_query_map])%list) st))
      = [EvMutate reg_query_map]) by (apply new_events_app; reflexivity).
    rewrite Hnew. repeat split.
    unfold registries. simpl. rewrite (delete_id _ _ Hq). reflexivity.
Qed.

Lemma send_response_pending_query_witness :
  (send Scenario.quiet Scenario.response_message Scenario.fresh).1
  = Return (mkUStatus INTERNAL "Query doesn't exist").
Proof.
  exact (proj1 (send_response_pending_query Scenario.quiet
                  Scenario.response_message Scenario.fresh eq_refl)).
Defined.

(** A response send whose reply call raises: the caller gets the internal
    status, and the pending-query registry has lost the entry it had. *)
Lemma failed_reply_drops_pending_query :
  let E := Scenario.env false true (inr []) false in
  let r := send E Scenario.response_message Scenario.with_pending in
  r.1 = Return (mkUStatus INTERNAL "Unable to reply with Zenoh: reply failed")
  /\ List.filter is_reply_call (new_events Scenario.with_pending r.2) <> []
  /\ query_map Scenario.with_pending
       !! SerializeToString_UUID E (reqid (attributes Scenario.response_message))
     = Some Scenario.pending
  /\ registries r.2 <> registries Scenario.with_pending.
Proof.
  cbv zeta. split; [vm_compute; reflexivity|].
  split; [vm_compute; discriminate|].
  split; [vm_compute; reflexivity|].
  intros Heq.
  apply (f_equal (fun regs => regs.1.2 !! Scenario.serialize_uuid (mkUUID 3 4))) in Heq.
  vm_compute in Heq. discriminate.
Qed.

(** [C2] No send changes the subscription, queryable or
    RPC-response-listener registry.  The pending-query registry is left as
    it was by a publish, notification or request send; a response send
    removes the entry under its correlation id before the reply is
    attempted, and the entry stays removed whatever the substrate answers.
    A publish, notification or response send always hands back a status,
    whether or not the codec or the substrate failed. *)
Theorem send_registry_effect (E : Env) (message : UMessage) (st : State) :
  let a := attributes message in
  let r := send E message st in
  subscriber_map r.2 = subscriber_map st
  /\ queryable_map r.2 = queryable_map st
  /\ rpc_callback_map r.2 = rpc_callback_map st
  /\ query_map r.2 =
     match type a with
     | UMESSAGE_TYPE_RESPONSE =>
         delete (SerializeToString_UUID E (reqid a)) (query_map st)
     | _ => query_map st
     end
  /\ (type a <> UMESSAGE_TYPE_REQUEST -> exists status, r.1 = Return status).
Proof.
  intros a r. subst r a. unfold send.
  destruct (type (attributes message)) eqn:Hkind.
  - simpl. repeat split; eauto.
  - pose proof (send_publish_notification_registries E
                  (to_zenoh_key_string E (source (attributes message)))
                  (payload message) (attributes message) st) as Hregs.
    pose proof (send_publish_notification_returns E
                  (to_zenoh_key_string E (source (attributes message)))
                  (payload message) (attributes message) st) as (status & Hr).
    unfold registries in Hregs. injection Hregs as H1 H2 H3 H4.
    repeat split; eauto.
  - pose proof (send_request_registries E
                  (to_zenoh_key_string E (sink (attributes message)))
                  (payload message) (attributes message) st) as Hregs.
    unfold registries in Hregs. injection Hregs as H1 H2 H3 H4.
    repeat split; eauto. intros H; done.
  - rewrite send_response_run.
    destruct (query_map st !! _) as [q|]; simpl;
      [destruct (query_reply_raises E q _)|]; simpl; repeat split; eauto.
  - pose proof (send_publish_notification_registries E
                  (to_zenoh_key_string E (sink (attributes message)))
                  (payload message) (attributes message) st) as Hregs.
    pose proof (send_publish_notification_returns E
                  (to_zenoh_key_string E (sink (attributes message)))
                  (payload message) (attributes message) st) as (status & Hr).
    unfold registries in Hregs. injection Hregs as H1 H2 H3 H4.
    repeat split; eauto.
  - simpl. repeat split; eauto.
Qed.

Lemma send_registry_effect_witness :
  exists status,
    (send (Scenario.env false true (inr []) false) Scenario.response_message
       Scenario.with_pending).1 = Return status.
Proof.
  refine (proj2 (proj2 (proj2 (proj2
            (send_registry_effect (Scenario.env false true (inr []) false)
               Scenario.response_message Scenario.with_pending)))) _).
  discriminate.
Defined.

(** *** Validation in [send] *)

(** The validators' verdict has no bearing on what [send] does. *)
Lemma send_ignores_validators (E : Env) v (message : UMessage) (st : State) :
  send (with_validators v E) message st = send E message st.
Proof. unfold send. destruct (type (attributes message)); reflexivity. Qed.

(** A message of none of the four kinds: invalid-argument, state untouched. *)
Lemma send_unrecognized_kind (E : Env) (message : UMessage) (st : State) :
  type (attributes message) <> UMESSAGE_TYPE_PUBLISH ->
  type (attributes message) <> UMESSAGE_TYPE_NOTIFICATION ->
  type (attributes message) <> UMESSAGE_TYPE_REQUEST ->
  type (attributes message) <> UMESSAGE_TYPE_RESPONSE ->
  send E message st
  = (Return (mkUStatus INVALID_ARGUMENT "Wrong Message type in UAttributes"), st).
Proof.
  intros Hp Hn Hq Hr. unfold send.
  destruct (type (attributes message)); done.
Qed.

(** [C5] A publish message that names a sink violates the publish shape
    rules, and the publish validator says so; [send] still publishes it and
    hands back ok, because the validator's verdict is dropped. *)
Theorem send_publish_with_sink_is_sent :
  let r := send Scenario.quiet Scenario.publish_with_sink Scenario.fresh in
  Validators_validate Scenario.quiet UMESSAGE_TYPE_PUBLISH
    (attributes Scenario.publish_with_sink)
  = ValidationFailure "Invalid publish attributes"
  /\ r.1 = Return (mkUStatus OK "Successfully sent data to Zenoh")
  /\ List.filter is_substrate_call (new_events Scenario.fresh r.2)
     = [EvPut (KeyString "vehicle/body/door.front_left")
          (APP_CUSTOM_with_suffix "2") "data"
          ("attrs:" ++ Scenario.serialize_uuid (mkUUID 1 2))
          DATA_LOW].
Proof. cbv zeta. repeat split; vm_compute; reflexivity. Qed.

(** *** The timeout of a request *)

(** [C4] A request that gets as far as the query: the one substrate call
    is the query, and its timeout is the number read off the time-to-live
    field divided by one thousand (milliseconds to seconds).  A field that
    is not set reads as zero, never as [None], so a request without a
    time-to-live is queried with timeout zero: the fallback written in the
    source is not applied to it. *)
Theorem send_request_timeout (E : Env) (message : UMessage) (st : State)
    (att : Attachment) (resp_callback : UListener) :
  type (attributes message) = UMESSAGE_TYPE_REQUEST ->
  truthy_bytes (value (payload message)) = true ->
  uattributes_to_attachment E (attributes message) = Some att ->
  rpc_callback_map st
    !! SerializeToString_UUri E (read_UUri (source (attributes message)))
  = Some resp_callback ->
  let a := attributes message in
  let p := payload message in
  exists timeout : Q,
    new_events st (send E message st).2
    = [EvGetCallback (to_zenoh_key_string E (sink a)) resp_callback
         (mkValue (value p)
            (APP_CUSTOM_with_suffix (str_UPayloadFormat (format p))))
         timeout]
    /\ match ttl a with
       | Some ms =>
           timeout = ms # 1000
           /\ (timeout * inject_Z 1000 == inject_Z ms)%Q
       | None =>
           timeout = 0 # 1000
           /\ ~ (timeout == default_timeout)%Q
       end.
Proof.
  intros Hkind Hdata Hatt Hcb a p.
  exists (effective_timeout (ttl a)). split.
  - subst a p. unfold send. rewrite Hkind.
    unfold send_request, session_get_callback. unfold_monad.
    rewrite Hdata, Hatt. simpl. rewrite Hcb. simpl.
    destruct (session_get_raises E _ _ _); simpl;
      apply new_events_app; reflexivity.
  - unfold effective_timeout. destruct (ttl a) as [ms|]; simpl.
    + split; [reflexivity|].
      unfold Qeq, Qmult, inject_Z. simpl. lia.
    + split; [reflexivity|]. unfold Qeq, default_timeout. simpl. lia.
Qed.

Lemma send_request_timeout_witness :
  exists timeout : Q,
    new_events Scenario.with_response_listener
      (send Scenario.quiet (Scenario.request_message None)
         Scenario.with_response_listener).2
    = [EvGetCallback (KeyString "vehicle/body/rpc.lock") 5%positive
         (mkValue "data" (APP_CUSTOM_with_suffix "2")) timeout]
    /\ timeout = 0 # 1000
    /\ ~ (timeout == default_timeout)%Q.
Proof.
  destruct (send_request_timeout Scenario.quiet
              (Scenario.request_message None)
              Scenario.with_response_listener
              ("attrs:" ++ Scenario.serialize_uuid (mkUUID 3 4))
              5%positive eq_refl eq_refl eq_refl eq_refl)
    as (timeout & Hnew & Hzero & Hne).
  exists timeout. split; [exact Hnew|]. split; [exact Hzero | exact Hne].
Defined.

(** *** Registration and removal of listeners *)

Lemma register_response_listener_run (E : Env) topic listener st :
  let r := register_response_listener E topic listener st in
  r.1 = Return (mkUStatus OK "Successfully register response callback with Zenoh")
  /\ rpc_callback_map r.2
     = <[SerializeToString_UUri E topic := listener]> (rpc_callback_map st)
  /\ subscriber_map r.2 = subscriber_map st
  /\ queryable_map r.2 = queryable_map st
  /\ query_map r.2 = query_map st.
Proof. repeat split. Qed.

Lemma register_request_listener_run (E : Env) topic listener st :
  let r := register_request_listener E topic listener st in
  rpc_callback_map r.2 = rpc_callback_map st
  /\ subscriber_map r.2 = subscriber_map st
  /\ query_map r.2 = query_map st
  /\ match session_declare_queryable E (to_zenoh_key_string E (Some topic)) with
     | inl _ =>
         r.1 = Return (mkUStatus INTERNAL "Unable to register callback with Zenoh")
         /\ queryable_map r.2 = queryable_map st
     | inr queryable =>
         r.1 = Return (mkUStatus OK "Successfully register callback with Zenoh")
         /\ queryable_map r.2
            = <[(SerializeToString_UUri E topic, listener) := queryable]>
                (queryable_map st)
     end.
Proof.
  unfold register_request_listener, declare_queryable, queryable_map_setitem.
  unfold_monad. simpl.
  destruct (session_declare_queryable E _); simpl; repeat split.
Qed.

Lemma register_publish_notification_listener_run (E : Env) topic listener st :
  let r := register_publish_notification_listener E topic listener st in
  rpc_callback_map r.2 = rpc_callback_map st
  /\ queryable_map r.2 = queryable_map st
  /\ query_map r.2 = query_map st
  /\ match session_declare_subscriber E (to_zenoh_key_string E (Some topic)) with
     | inr (Some subscriber) =>
         r.1 = Return (mkUStatus OK "Successfully register callback with Zenoh")
         /\ subscriber_map r.2
            = <[(SerializeToString_UUri E topic, listener) := subscriber]>
                (subscriber_map st)
     | _ =>
         r.1 = Return (mkUStatus INTERNAL "Unable to register callback with Zenoh")
         /\ subscriber_map r.2 = subscriber_map st
     end.
Proof.
  unfold register_publish_notification_listener, declare_subscriber,
    subscriber_map_setitem.
  unfold_monad. simpl.
  destruct (session_declare_subscriber E _) as [msg|[subscriber|]]; simpl;
    repeat split.
Qed.

(** What [unregister_listener] does, by the first targeted dictionary that
    lacks its key. *)
Lemma unregister_listener_run (E : Env) topic listener st :
  let k := SerializeToString_UUri E topic in
  let r := unregister_listener E topic listener st in
  match unregister_flags E topic with
  | (pub, req, resp) =>
      let rpc' := if resp then delete k (rpc_callback_map st)
                  else rpc_callback_map st in
      let qry' := if req then delete (k, listener) (queryable_map st)
                  else queryable_map st in
      let sub' := if pub then delete (k, listener) (subscriber_map st)
                  else subscriber_map st in
      query_map r.2 = query_map st
      /\ if resp && negb (is_set (rpc_callback_map st !! k)) then
           r.1 = Raise (ValueError "RPC response callback doesn't exist")
           /\ registries r.2 = registries st
         else if req && negb (is_set (queryable_map st !! (k, listener))) then
           r.1 = Raise (ValueError "RPC request listener doesn't exist")
           /\ rpc_callback_map r.2 = rpc'
           /\ queryable_map r.2 = queryable_map st
           /\ subscriber_map r.2 = subscriber_map st
         else if pub && negb (is_set (subscriber_map st !! (k, listener))) then
           r.1 = Raise (ValueError "Publish listener doesn't exist")
           /\ rpc_callback_map r.2 = rpc'
           /\ queryable_map r.2 = qry'
           /\ subscriber_map r.2 = subscriber_map st
         else
           r.1 = Return tt
           /\ rpc_callback_map r.2 = rpc'
           /\ queryable_map r.2 = qry'
           /\ subscriber_map r.2 = sub'
  end.
Proof.
  unfold unregister_listener.
  destruct (unregister_flags E topic) as [[pub req] resp].
  unfold _remove_response_listener, _remove_request_listener,
    _remove_publish_listener.
  unfold_dict. unfold_monad. unfold registries.
  destruct resp, req, pub; simpl;
    repeat match goal with
    | |- context [rpc_callback_map st !! ?k] =>
        destruct (rpc_callback_map st !! k) eqn:?; simpl
    | |- context [queryable_map st !! ?k] =>
        destruct (queryable_map st !! k) eqn:?; simpl
    | |- context [subscriber_map st !! ?k] =>
        destruct (subscriber_map st !! k) eqn:?; simpl
    end;
    repeat split;
    repeat match goal with
    | H : _ !! _ = None |- _ => rewrite (delete_id _ _ H)
    end; reflexivity.
Qed.

(** The classification of [unregister_listener]: the wildcard test never
    succeeds, so one flag is raised, by the two predicates on the topic. *)
Lemma unregister_flags_run (E : Env) topic :
  unregister_flags E topic
  = if is_rpc_response E topic then (false, false, true)
    else if is_rpc_method E topic then (false, true, false)
    else (true, false, false).
Proof. reflexivity. Qed.

(** [C7] A topic of the wildcard shape is not registered three times.  The
    test that guards the three-way registration reads the fields of the
    topic, which are message objects and truthy whether set or not, so it
    fails, and the topic is classified like any other: when it is neither a
    response nor a method address, the only substrate call is the
    declaration of one subscriber, the status is ok when the substrate
    grants it, and the listener is entered neither as response listener nor
    as request listener.  [unregister_listener] on the same topic likewise
    leaves those two registries alone. *)
Theorem register_listener_wildcard (E : Env) (topic : UUri)
    (listener : UListener) (st : State) :
  wildcard topic ->
  is_rpc_response E topic = false ->
  is_rpc_method E topic = false ->
  let k := SerializeToString_UUri E topic in
  let key := to_zenoh_key_string E (Some topic) in
  let r := register_listener E topic listener st in
  let u := unregister_listener E topic listener r.2 in
  rpc_callback_map r.2 = rpc_callback_map st
  /\ queryable_map r.2 = queryable_map st
  /\ List.filter is_substrate_call (new_events st r.2)
     = [EvDeclareSubscriber key listener]
  /\ (forall subscriber,
        session_declare_subscriber E key = inr (Some subscriber) ->
        r.1 = Return (mkUStatus OK "Successfully register listener with Zenoh")
        /\ subscriber_map r.2
           = <[(k, listener) := subscriber]> (subscriber_map st))
  /\ rpc_callback_map u.2 = rpc_callback_map st
  /\ queryable_map u.2 = queryable_map st.
Proof.
  intros _ Hresp Hmeth k key r u.
  assert (Hr : r = (x <- register_publish_notification_listener E topic listener ;;
                    if bool_decide (code x = OK)
                    then ret (mkUStatus OK "Successfully register listener with Zenoh")
                    else ret (mkUStatus INTERNAL "Unsuccessful registration"))%py st).
  { subst r. unfold register_listener. simpl. rewrite Hresp, Hmeth. reflexivity. }
  assert (Hu : rpc_callback_map u.2 = rpc_callback_map r.2
               /\ queryable_map u.2 = queryable_map r.2).
  { pose proof (unregister_listener_run E topic listener r.2) as Hun.
    cbv zeta in Hun. rewrite unregister_flags_run, Hresp, Hmeth in Hun.
    fold u in Hun. destruct Hun as [_ Hun]. simpl in Hun.
    destruct (negb (is_set (subscriber_map r.2 !! _)));
      destruct Hun as (_ & H1 & H2 & _); split; assumption. }
  destruct Hu as [Hu1 Hu2]. rewrite Hu1, Hu2. clear Hu1 Hu2 u.
  rewrite Hr. clear Hr r.
  unfold register_publish_notification_listener, declare_subscriber.
  unfold_dict. unfold_monad. fold key k.
  destruct (session_declare_subscriber E key) as [msg|[subscriber|]]; simpl;
    (split; [reflexivity|]); (split; [reflexivity|]);
    (split; [unfold new_events; simpl; rewrite <- ?app_assoc; simpl;
             rewrite ?drop_app_length; reflexivity|]);
    (split; [|split; reflexivity]);
    intros granted [= <-]; split; reflexivity.
Qed.

Lemma register_listener_wildcard_witness :
  wildcard Scenario.wildcard_topic
  /\ (register_listener Scenario.quiet Scenario.wildcard_topic 5%positive
        Scenario.fresh).1
     = Return (mkUStatus OK "Successfully register listener with Zenoh")
  /\ rpc_callback_map
       (register_listener Scenario.quiet Scenario.wildcard_topic 5%positive
          Scenario.fresh).2
     = rpc_callback_map Scenario.fresh.
Proof.
  assert (Hwild : wildcard Scenario.wildcard_topic)
    by (repeat split; reflexivity).
  split; [exact Hwild|].
  destruct (register_listener_wildcard Scenario.quiet Scenario.wildcard_topic
              5%positive Scenario.fresh Hwild eq_refl eq_refl)
    as (Hrpc & _ & _ & Hok & _).
  split; [exact (proj1 (Hok 11%positive eq_refl)) | exact Hrpc].
Defined.





(** *** Lock discipline *)

Lemma locks_after_app guard held tr1 tr2 :
  locks_after guard held (tr1 ++ tr2)
  = match locks_after guard held tr1 with
    | Some held' => locks_after guard held' tr2
    | None => None
    end.
Proof.
  revert held. induction tr1 as [|ev tr1 IH]; intros held; simpl; [done|].
  destruct ev; simpl; try apply IH.
  - destruct held as [|l' held']; [done|]. destruct (bool_decide (l = l')); [apply IH|done].
  - destruct (guard r) as [l|]; [|apply IH].
    destruct (bool_decide (l ∈ held)); [apply IH|done].
Qed.

Section Discipline.
Context {A B : Type} (held : list Lock).

Lemma disciplined_ret (a : A) : disciplined held (ret a).
Proof. intros st. exists []. simpl. rewrite app_nil_r. done. Qed.

Lemma disciplined_raise (e : PyExn) : disciplined held (@raise A e).
Proof. intros st. exists []. simpl. rewrite app_nil_r. done. Qed.

Lemma disciplined_get_state : disciplined held get_state.
Proof. intros st. exists []. simpl. rewrite app_nil_r. done. Qed.

Lemma disciplined_modify (f : State -> State) :
  (forall st, trace (f st) = trace st) -> disciplined held (modify f).
Proof. intros Hf st. exists []. simpl. rewrite app_nil_r, Hf. done. Qed.

Lemma disciplined_emit (ev : Event) :
  locks_after lock_of held [ev] = Some held -> disciplined held (emit ev).
Proof. intros Hev st. exists [ev]. done. Qed.

Lemma disciplined_bind (m : M A) (k : A -> M B) :
  disciplined held m -> (forall a, disciplined held (k a)) ->
  disciplined held (bind m k).
Proof.
  intros Hm Hk st. unfold bind. destruct (Hm st) as (n1 & T1 & L1).
  destruct (m st) as [[a|e] st1]; simpl in *.
  - destruct (Hk a st1) as (n2 & T2 & L2). exists (n1 ++ n2)%list.
    rewrite T2, T1, app_assoc, locks_after_app, L1. done.
  - exists n1. done.
Qed.

Lemma disciplined_try_except (body : M A) (handler : PyExn -> M A) :
  disciplined held body -> (forall e, disciplined held (handler e)) ->
  disciplined held (try_except body handler).
Proof.
  intros Hm Hk st. unfold try_except. destruct (Hm st) as (n1 & T1 & L1).
  destruct (body st) as [[a|e] st1]; simpl in *.
  - exists n1. done.
  - destruct (Hk e st1) as (n2 & T2 & L2). exists (n1 ++ n2)%list.
    rewrite T2, T1, app_assoc, locks_after_app, L1. done.
Qed.

Lemma disciplined_with_lock (l : Lock) (body : M A) :
  disciplined (l :: held) body -> disciplined held (with_lock l body).
Proof.
  intros Hbody st. unfold with_lock, bind, emit, modify. simpl.
  destruct (Hbody (set_trace (fun tr => (tr ++ [EvAcquire l])%list) st))
    as (n & T & L).
  destruct (body _) as [r st1]. simpl in *.
  exists ([EvAcquire l] ++ n ++ [EvRelease l])%list. split.
  - rewrite T, <- !app_assoc. done.
  - simpl. rewrite locks_after_app, L. simpl.
    rewrite bool_decide_eq_true_2; done.
Qed.

Lemma disciplined_for_each (body : A -> M (option B)) (xs : list A) :
  (forall x, disciplined held (body x)) -> disciplined held (for_each body xs).
Proof.
  intros Hbody. induction xs as [|x xs IH]; simpl.
  - intros st. exists []. simpl. rewrite app_nil_r. done.
  - intros st. unfold bind. destruct (Hbody x st) as (n1 & T1 & L1).
    destruct (body x st) as [[[v|]|e] st1]; simpl in *.
    + exists n1. done.
    + destruct (IH st1) as (n2 & T2 & L2). exists (n1 ++ n2)%list.
      rewrite T2, T1, app_assoc, locks_after_app, L1. done.
    + exists n1. done.
Qed.

End Discipline.

(** One step of a discipline proof: peel the outermost construct. *)
Ltac discipline_step :=
  first
    [ apply disciplined_ret
    | apply disciplined_raise
    | apply disciplined_get_state
    | apply disciplined_for_each; intros ?
    | apply disciplined_with_lock
    | apply disciplined_try_except; [|intros ?]
    | apply disciplined_bind; [|intros ?]
    | apply disciplined_emit; reflexivity
    | apply disciplined_modify; reflexivity
    | progress cbv zeta
    | match goal with
      | |- disciplined _ (match ?x with _ => _ end) => destruct x
      | |- disciplined _ (if ?b then _ else _) => destruct b
      end ].

Ltac discipline :=
  unfold_dict; unfold_session;
  unfold raise_UStatus, raise_if;
  repeat discipline_step.

Lemma send_disciplined (E : Env) message : disciplined [] (send E message).
Proof.
  unfold send, send_publish_notification, send_request, send_response.
  discipline.
Qed.

Lemma register_listener_disciplined (E : Env) topic listener :
  disciplined [] (register_listener E topic listener).
Proof.
  unfold register_listener, register_response_listener,
    register_request_listener, register_publish_notification_listener.
  discipline.
Qed.

Lemma unregister_listener_disciplined (E : Env) topic listener :
  disciplined [] (unregister_listener E topic listener).
Proof.
  unfold unregister_listener, _remove_response_listener,
    _remove_request_listener, _remove_publish_listener.
  discipline.
Qed.

Lemma invoke_method_disciplined (E : Env) topic payload options :
  disciplined [] (invoke_method E topic payload options).
Proof.
  unfold invoke_method, get_response_uuri.
  discipline.
Qed.

Lemma queryable_callback_disciplined (E : Env) topic listener query :
  disciplined [] (queryable_callback E topic listener query).
Proof.
  unfold queryable_callback.
  discipline.
Qed.

(** The removal of a pending query by a response send and its insertion by
    the queryable callback both happen with no lock held, so no assignment
    of a lock to the pending-query registry is respected; and four
    registries cannot each have a lock of their own among three locks. *)
Lemma pending_query_mutated_without_lock :
  let removal :=
    new_events Scenario.with_pending
      (send Scenario.quiet Scenario.response_message Scenario.with_pending).2 in
  let inserted :=
    (queryable_callback Scenario.quiet Scenario.method_topic 5%positive
       Scenario.pending Scenario.fresh).2 in
  let insertion := new_events Scenario.fresh inserted in
  query_map inserted !! Scenario.serialize_uuid (mkUUID 3 4)
  = Some Scenario.pending
  /\ (forall guard : Registry -> option Lock,
        is_Some (guard reg_query_map) ->
        locks_after guard [] removal = None
        /\ locks_after guard [] insertion = None)
  /\ ~ (exists dedicated : Registry -> Lock,
          forall r1 r2, dedicated r1 = dedicated r2 -> r1 = r2).
Proof.
  cbv zeta. split; [vm_compute; reflexivity|]. split.
  - intros guard [l Hl].
    assert (Hrem : new_events Scenario.with_pending
              (send Scenario.quiet Scenario.response_message
                 Scenario.with_pending).2
            = [EvMutate reg_query_map;
               EvReply Scenario.pending
                 (mkSample "vehicle/body/rpc.lock"
                    (mkValue "data" (APP_CUSTOM_with_suffix "2"))
                    (Some ("attrs:" ++ Scenario.serialize_uuid (mkUUID 9 9))))])
      by (vm_compute; reflexivity).
    assert (Hins : exists m, new_events Scenario.fresh
              (queryable_callback Scenario.quiet Scenario.method_topic
                 5%positive Scenario.pending Scenario.fresh).2
            = [EvMutate reg_query_map; EvOnReceive 5%positive m])
      by (eexists; vm_compute; reflexivity).
    destruct Hins as [m Hins]. rewrite Hrem, Hins. simpl. rewrite Hl.
    split; reflexivity.
  - intros [dedicated Hinj].
    destruct (dedicated reg_subscriber_map) eqn:H1,
             (dedicated reg_queryable_map) eqn:H2,
             (dedicated reg_query_map) eqn:H3,
             (dedicated reg_rpc_callback_map) eqn:H4;
      match goal with
      | Ha : dedicated ?a = ?l, Hb : dedicated ?b = ?l |- _ =>
          assert (a = b) by (apply Hinj; congruence); discriminate
      end.
Qed.

(** [C9] The subscription, queryable and RPC-response-listener registries
    each have a lock of their own, and the pending-query registry has none.
    Every operation of the adapter and the queryable callback, started with
    no lock held, mutates each of the three guarded registries only between
    the acquisition and the release of its lock, and ends with no lock
    held. *)
Theorem registry_lock_discipline (E : Env) :
  (forall r1 r2 l, lock_of r1 = Some l -> lock_of r2 = Some l -> r1 = r2)
  /\ (forall r, r <> reg_query_map -> is_Some (lock_of r))
  /\ lock_of reg_query_map = None
  /\ (forall message, disciplined [] (send E message))
  /\ (forall topic listener, disciplined [] (register_listener E topic listener))
  /\ (forall topic listener, disciplined [] (unregister_listener E topic listener))
  /\ (forall topic payload options,
        disciplined [] (invoke_method E topic payload options))
  /\ (forall topic listener query,
        disciplined [] (queryable_callback E topic listener query)).
Proof.
  split; [|split; [|split; [reflexivity|]]].
  - intros [] [] l; simpl; congruence.
  - intros [] Hne; simpl; eauto. done.
  - repeat split; intros.
    + apply send_disciplined.
    + apply register_listener_disciplined.
    + apply unregister_listener_disciplined.
    + apply invoke_method_disciplined.
    + apply queryable_callback_disciplined.
Qed.

Lemma registry_lock_discipline_witness :
  exists new,
    trace (register_listener Scenario.quiet Scenario.wildcard_topic 5%positive
             Scenario.fresh).2 = (trace Scenario.fresh ++ new)%list
    /\ locks_after lock_of [] new = Some [].
Proof.
  exact (proj1 (proj2 (proj2 (proj2 (proj2
           (registry_lock_discipline Scenario.quiet)))))
           Scenario.wildcard_topic 5%positive Scenario.fresh).
Defined.

(** ** Further properties of the outbound paths *)

Ltac trace_tail :=
  unfold new_events; simpl; rewrite <- ?app_assoc; simpl;
  rewrite ?drop_app_length, ?drop_all; try reflexivity.

(** A request that does not get as far as the query: an empty payload or
    a failed attribute encoding gives invalid-argument, and an address read
    off the source field that has no registered response listener gives
    internal.  A request with no source set is of the last kind: the field
    reads as the default address, not as [None], so the request goes on to
    the listener lookup instead of being turned down for its missing
    source.  In each case the state, trace included, is what it was, so no
    query reached the substrate. *)
Theorem send_request_rejected (E : Env) (message : UMessage) (st : State) :
  type (attributes message) = UMESSAGE_TYPE_REQUEST ->
  let a := attributes message in
  let p := payload message in
  let r := send E message st in
  (truthy_bytes (value p) = false ->
   r = (Return (mkUStatus INVALID_ARGUMENT
                  "The data in UPayload should be Data::Value"), st))
  /\ (truthy_bytes (value p) = true ->
      uattributes_to_attachment E a = None ->
      r = (Return (mkUStatus INVALID_ARGUMENT
                     "Unable to transform UAttributes to attachment"), st))
  /\ (truthy_bytes (value p) = true ->
      is_Some (uattributes_to_attachment E a) ->
      rpc_callback_map st !! SerializeToString_UUri E (read_UUri (source a))
      = None ->
      r = (Return (mkUStatus INTERNAL "Unable to get callback"), st))
  /\ (truthy_bytes (value p) = true ->
      is_Some (uattributes_to_attachment E a) ->
      source a = None ->
      rpc_callback_map st !! SerializeToString_UUri E (mkUUri None None None)
      = None ->
      r = (Return (mkUStatus INTERNAL "Unable to get callback"), st)).
Proof.
  intros Hkind a p r. subst r a p. unfold send. rewrite Hkind.
  unfold send_request. unfold_monad.
  repeat split.
  - intros ->. reflexivity.
  - intros -> ->. reflexivity.
  - intros -> [att ->] Hcb. simpl. rewrite Hcb. reflexivity.
  - intros -> [att ->] -> Hcb. simpl. rewrite Hcb. reflexivity.
Qed.

Lemma send_request_rejected_witness :
  send Scenario.quiet (Scenario.request_message None) Scenario.fresh
  = (Return (mkUStatus INTERNAL "Unable to get callback"), Scenario.fresh).
Proof.
  refine (proj1 (proj2 (proj2
            (send_request_rejected Scenario.quiet
               (Scenario.request_message None) Scenario.fresh eq_refl)))
            eq_refl _ eq_refl).
  eexists. reflexivity.
Defined.

(** The query call of a request is not guarded: when the substrate raises
    on it, the exception leaves [send] and no status is handed back,
    whereas a raising [put] or reply is turned into an internal status. *)
Theorem send_request_substrate_exception (E : Env) (message : UMessage)
    (st : State) (att : Attachment) (src : UUri) (resp_callback : UListener)
    (msg : string) :
  type (attributes message) = UMESSAGE_TYPE_REQUEST ->
  truthy_bytes (value (payload message)) = true ->
  uattributes_to_attachment E (attributes message) = Some att ->
  source (attributes message) = Some src ->
  rpc_callback_map st !! SerializeToString_UUri E src = Some resp_callback ->
  (forall key v timeout, session_get_raises E key v timeout = Some msg) ->
  let r := send E message st in
  r.1 = Raise (ZenohError msg)
  /\ registries r.2 = registries st
  /\ exists key v timeout,
       new_events st r.2 = [EvGetCallback key resp_callback v timeout].
Proof.
  intros Hkind Hdata Hatt Hsrc Hcb Hraise r. subst r.
  unfold send. rewrite Hkind.
  unfold send_request, session_get_callback. unfold_monad.
  rewrite Hdata, Hatt, Hsrc. simpl. rewrite Hcb. simpl. rewrite Hraise. simpl.
  repeat split. eexists _, _, _. trace_tail.
Qed.

Lemma send_request_substrate_exception_witness :
  (send (with_get_raises (Some "no route") Scenario.quiet)
     (Scenario.request_message (Some 2500%Z))
     Scenario.with_response_listener).1
  = Raise (ZenohError "no route").
Proof.
  exact (proj1 (send_request_substrate_exception
                  (with_get_raises (Some "no route") Scenario.quiet)
                  (Scenario.request_message (Some 2500%Z))
                  Scenario.with_response_listener
                  ("attrs:" ++ Scenario.serialize_uuid (mkUUID 3 4))
                  Scenario.response_topic 5%positive "no route"
                  eq_refl eq_refl eq_refl eq_refl eq_refl
                  (fun _ _ _ => eq_refl))).
Defined.

(** A publish or notification that passes the payload and codec tests
    makes exactly one substrate call, a [put], whether or not it raises:
    on the key derived from the source for a publish and from the sink for
    a notification, with the payload bytes as they are, the encoding
    suffixed by the format's number, the encoded attachment and the mapped
    priority.  The derived key is not examined: a status object handed back
    by the key derivation is passed to [put] like a key string. *)
Theorem send_publish_notification_put (E : Env) (message : UMessage)
    (st : State) (att : Attachment) (prio : Priority) :
  type (attributes message) = UMESSAGE_TYPE_PUBLISH
  \/ type (attributes message) = UMESSAGE_TYPE_NOTIFICATION ->
  truthy_bytes (value (payload message)) = true ->
  uattributes_to_attachment E (attributes message) = Some att ->
  truthy_bytes att = true ->
  map_zenoh_priority E (priority (attributes message)) = Some prio ->
  let a := attributes message in
  let p := payload message in
  new_events st (send E message st).2
  = [EvPut
       (match type a with
        | UMESSAGE_TYPE_PUBLISH => to_zenoh_key_string E (source a)
        | _ => to_zenoh_key_string E (sink a)
        end)
       (APP_CUSTOM_with_suffix (str_UPayloadFormat (format p)))
       (value p) att prio].
Proof.
  intros Hkind Hdata Hatt Htruthy Hprio a p. subst a p. unfold send.
  destruct Hkind as [-> | ->];
    unfold send_publish_notification, session_put; unfold_monad;
    rewrite Hdata, Hatt, Htruthy, Hprio; simpl;
    destruct (session_put_raises E _ _ _ _ _); simpl; trace_tail.
Qed.

Lemma send_publish_notification_put_witness :
  new_events Scenario.fresh
    (send Scenario.quiet Scenario.publish_message Scenario.fresh).2
  = [EvPut (KeyString "vehicle/body/door.front_left")
       (APP_CUSTOM_with_suffix "2") "data"
       ("attrs:" ++ Scenario.serialize_uuid (mkUUID 1 1)) DATA_LOW].
Proof.
  exact (send_publish_notification_put Scenario.quiet Scenario.publish_message
           Scenario.fresh ("attrs:" ++ Scenario.serialize_uuid (mkUUID 1 1))
           DATA_LOW (or_introl eq_refl) eq_refl eq_refl eq_refl eq_refl).
Defined.

(** The response path tests neither the payload nor the result of the
    attribute encoding: for a tracked correlation id the status is ok
    exactly when the reply call does not raise, also with empty payload
    bytes and with a failed encoding, in which case the reply carries no
    attachment. *)
Theorem send_response_unchecked (E : Env) (message : UMessage) (st : State)
    (q : Query) :
  type (attributes message) = UMESSAGE_TYPE_RESPONSE ->
  query_map st !! SerializeToString_UUID E (reqid (attributes message)) = Some q ->
  let a := attributes message in
  let p := payload message in
  let reply :=
    mkSample (key_expr q)
      (mkValue (value p) (APP_CUSTOM_with_suffix (str_UPayloadFormat (format p))))
      (uattributes_to_attachment E a) in
  exists status,
    (send E message st).1 = Return status
    /\ (code status = OK <-> query_reply_raises E q reply = None)
    /\ (code status <> OK -> code status = INTERNAL)
    /\ List.filter is_reply_call (new_events st (send E message st).2)
       = [EvReply q reply].
Proof.
  intros Hkind Hq a p reply. subst a p reply. unfold send. rewrite Hkind.
  rewrite send_response_run. rewrite Hq. simpl.
  destruct (query_reply_raises E q _) as [msg|]; simpl;
    eexists; (split; [reflexivity|]); simpl;
    (split; [split; intros; done|]); (split; [intros; done|]);
    trace_tail.
Qed.

Lemma send_response_unchecked_witness :
  exists status,
    (send Scenario.quiet Scenario.response_message Scenario.with_pending).1
    = Return status
    /\ code status = OK.
Proof.
  destruct (send_response_unchecked Scenario.quiet Scenario.response_message
              Scenario.with_pending Scenario.pending eq_refl eq_refl)
    as (status & Hr & Hok & _).
  exists status. split; [exact Hr|]. apply Hok. reflexivity.
Defined.

(** A pending query is answered at most once: whatever the first response
    send did, a second send of the same response finds no query, hands
    back the internal status, makes no substrate call and leaves the
    registries as the first send left them. *)
Theorem send_response_twice (E : Env) (message : UMessage) (st : State) :
  type (attributes message) = UMESSAGE_TYPE_RESPONSE ->
  let st1 := (send E message st).2 in
  let r := send E message st1 in
  r.1 = Return (mkUStatus INTERNAL "Query doesn't exist")
  /\ List.filter is_substrate_call (new_events st1 r.2) = []
  /\ registries r.2 = registries st1.
Proof.
  intros Hkind st1 r.
  assert (Hgone : query_map st1
                    !! SerializeToString_UUID E (reqid (attributes message))
                  = None).
  { subst st1. unfold send. rewrite Hkind. rewrite send_response_run.
    destruct (query_map st !! _) as [q|]; simpl;
      [destruct (query_reply_raises E q _)|]; simpl; apply lookup_delete_eq. }
  subst r. unfold send. rewrite Hkind. rewrite send_response_run.
  rewrite Hgone. simpl. split; [reflexivity|]. split; [trace_tail|].
  unfold registries. simpl. rewrite (delete_id _ _ Hgone). reflexivity.
Qed.

Lemma send_response_twice_witness :
  (send Scenario.quiet Scenario.response_message
     (send Scenario.quiet Scenario.response_message Scenario.with_pending).2).1
  = Return (mkUStatus INTERNAL "Query doesn't exist").
Proof.
  exact (proj1 (send_response_twice Scenario.quiet Scenario.response_message
                  Scenario.with_pending eq_refl)).
Defined.

(** ** The queryable callback *)

(** An incoming query is dropped, with nothing tracked and the listener
    not invoked, when it has no attachment or an empty one, when its
    attachment does not decode, or when it carries a value whose encoding
    maps to no payload format or to the unspecified one: the callback
    hands back an internal status and the state is what it was. *)
Theorem queryable_callback_drops (E : Env) (topic : UUri)
    (listener : UListener) (query : Query) (st : State) :
  truthy_attachment (query_attachment query) = false
  \/ (exists att u_status,
        query_attachment query = Some att
        /\ attachment_to_uattributes E att = inl u_status)
  \/ (exists v,
        query_value query = Some v
        /\ truthy_format (to_upayload_format E (value_encoding v)) = false) ->
  exists status,
    queryable_callback E topic listener query st = (Return (Some status), st)
    /\ code status = INTERNAL.
Proof.
  intros Hcase. unfold queryable_callback. unfold_dict. unfold_monad.
  destruct (query_attachment query) as [att|] eqn:Hatt; simpl; [|eauto].
  destruct (truthy_bytes att) eqn:Htruthy; simpl; [|eauto].
  destruct (attachment_to_uattributes E att) as [u_status|u] eqn:Hdec; simpl;
    [eauto|].
  destruct Hcase as [Hfalse | [(att' & s & [= <-] & Hs) | (v & Hv & Hfmt)]].
  - simpl in Hfalse. congruence.
  - congruence.
  - rewrite Hv. destruct (to_upayload_format E (value_encoding v)) as [enc|];
      simpl; [|eauto].
    simpl in Hfmt. destruct enc; simpl in *; try discriminate. eauto.
Qed.

Lemma queryable_callback_drops_witness :
  exists status,
    queryable_callback Scenario.quiet Scenario.method_topic 5%positive
      (mkQuery "vehicle/body/rpc.lock" None None) Scenario.fresh
    = (Return (Some status), Scenario.fresh)
    /\ code status = INTERNAL.
Proof.
  exact (queryable_callback_drops Scenario.quiet Scenario.method_topic
           5%positive (mkQuery "vehicle/body/rpc.lock" None None)
           Scenario.fresh (or_introl eq_refl)).
Defined.

(** The pending-query registry after a callback that decodes its query. *)
Lemma queryable_callback_tracks_aux (E : Env) topic listener query st att
    u_attribute u_payload :
  query_attachment query = Some att ->
  truthy_bytes att = true ->
  attachment_to_uattributes E att = inr u_attribute ->
  callback_payload E query u_payload ->
  query_map (queryable_callback E topic listener query st).2
  = <[SerializeToString_UUID E (id u_attribute) := query]> (query_map st)
  /\ (queryable_callback E topic listener query st).1 = Return None.
Proof.
  intros Hatt Htruthy Hdec Hpay.
  unfold queryable_callback, callback_payload in *. unfold_dict. unfold_monad.
  rewrite Hatt. simpl. rewrite Htruthy, Hdec. simpl.
  destruct (query_value query) as [v|].
  - destruct Hpay as (enc & Henc & Hne & ->). rewrite Henc.
    destruct enc; try done; simpl; split; reflexivity.
  - simpl. split; reflexivity.
Qed.

(** An incoming query that decodes is tracked under the serialized id of
    its attributes, replacing any query tracked under that id, with no lock
    taken and no other registry touched; then the listener is invoked once
    with the decoded attributes and the payload, and the callback hands
    back nothing. *)
Theorem queryable_callback_tracks (E : Env) (topic : UUri)
    (listener : UListener) (query : Query) (st : State)
    (att : Attachment) (u_attribute : UAttributes) (u_payload : UPayload) :
  query_attachment query = Some att ->
  truthy_bytes att = true ->
  attachment_to_uattributes E att = inr u_attribute ->
  callback_payload E query u_payload ->
  let r := queryable_callback E topic listener query st in
  let k := SerializeToString_UUID E (id u_attribute) in
  r.1 = Return None
  /\ query_map r.2 = <[k := query]> (query_map st)
  /\ subscriber_map r.2 = subscriber_map st
  /\ queryable_map r.2 = queryable_map st
  /\ rpc_callback_map r.2 = rpc_callback_map st
  /\ new_events st r.2
     = [EvMutate reg_query_map;
        EvOnReceive listener (mkUMessage u_attribute u_payload)].
Proof.
  intros Hatt Htruthy Hdec Hpay r k. subst r k.
  unfold queryable_callback, callback_payload in *. unfold_dict. unfold_monad.
  rewrite Hatt. simpl. rewrite Htruthy, Hdec. simpl.
  destruct (query_value query) as [v|].
  - destruct Hpay as (enc & Henc & Hne & ->). rewrite Henc.
    destruct enc; try done; simpl; repeat split; trace_tail.
  - subst u_payload. simpl. repeat split; trace_tail.
Qed.

Lemma queryable_callback_tracks_witness :
  query_map
    (queryable_callback Scenario.quiet Scenario.method_topic 5%positive
       Scenario.pending Scenario.fresh).2
  = <[Scenario.serialize_uuid (mkUUID 3 4) := Scenario.pending]>
      (query_map Scenario.fresh).
Proof.
  exact (proj1 (proj2
           (queryable_callback_tracks Scenario.quiet Scenario.method_topic
              5%positive Scenario.pending Scenario.fresh "attrs"
              (mkUAttributes (mkUUID 3 4) UMESSAGE_TYPE_REQUEST
                 (Some Scenario.response_topic) (Some Scenario.method_topic)
                 UPRIORITY_CS4 None (mkUUID 0 0))
              (mkUPayload UPAYLOAD_FORMAT_UNSPECIFIED "")
              eq_refl eq_refl eq_refl eq_refl))).
Defined.

(** Request in, response out: once the callback has tracked a query, a
    response whose correlation id is the request's id is replied on that
    very query, with the query's own key, the status is ok exactly when the
    reply call does not raise, and the pending-query registry is back to
    what it was before the request, less any entry that was already under
    that id. *)
Theorem request_then_response (E : Env) (topic : UUri) (listener : UListener)
    (query : Query) (st : State) (att : Attachment)
    (u_attribute : UAttributes) (u_payload : UPayload) (message : UMessage) :
  query_attachment query = Some att ->
  truthy_bytes att = true ->
  attachment_to_uattributes E att = inr u_attribute ->
  callback_payload E query u_payload ->
  type (attributes message) = UMESSAGE_TYPE_RESPONSE ->
  reqid (attributes message) = id u_attribute ->
  let st1 := (queryable_callback E topic listener query st).2 in
  let r := send E message st1 in
  let k := SerializeToString_UUID E (id u_attribute) in
  let reply :=
    mkSample (key_expr query)
      (mkValue (value (payload message))
         (APP_CUSTOM_with_suffix (str_UPayloadFormat (format (payload message)))))
      (uattributes_to_attachment E (attributes message)) in
  exists status,
    r.1 = Return status
    /\ (code status = OK <-> query_reply_raises E query reply = None)
    /\ List.filter is_reply_call (new_events st1 r.2) = [EvReply query reply]
    /\ query_map r.2 = delete k (query_map st).
Proof.
  intros Hatt Htruthy Hdec Hpay Hkind Hid st1 r k reply.
  destruct (queryable_callback_tracks_aux E topic listener query st att
              u_attribute u_payload Hatt Htruthy Hdec Hpay) as [Hmap _].
  fold st1 k in Hmap.
  assert (Hq : query_map st1
                 !! SerializeToString_UUID E (reqid (attributes message))
               = Some query).
  { rewrite Hid. fold k. rewrite Hmap. apply lookup_insert_eq. }
  subst r reply. unfold send. rewrite Hkind, send_response_run, Hq. simpl.
  destruct (query_reply_raises E query _) as [msg|]; simpl;
    eexists; (split; [reflexivity|]); simpl;
    (split; [split; intros; done|]);
    (split; [trace_tail|]);
    rewrite Hid; fold k; rewrite Hmap; apply delete_insert_eq.
Qed.

Lemma request_then_response_witness :
  exists status,
    (send Scenario.quiet Scenario.response_message
       (queryable_callback Scenario.quiet Scenario.method_topic 5%positive
          Scenario.pending Scenario.fresh).2).1 = Return status
    /\ code status = OK.
Proof.
  destruct (request_then_response Scenario.quiet Scenario.method_topic
              5%positive Scenario.pending Scenario.fresh "attrs"
              (mkUAttributes (mkUUID 3 4) UMESSAGE_TYPE_REQUEST
                 (Some Scenario.response_topic) (Some Scenario.method_topic)
                 UPRIORITY_CS4 None (mkUUID 0 0))
              (mkUPayload UPAYLOAD_FORMAT_UNSPECIFIED "")
              Scenario.response_message
              eq_refl eq_refl eq_refl eq_refl eq_refl eq_refl)
    as (status & Hr & Hok & _).
  exists status. split; [exact Hr|]. apply Hok. reflexivity.
Defined.

(** ** Further properties of the blocking call *)

(** Fetching the response address a second time changes nothing more: the
    same reference comes back and the state is the one the first call
    left.  Every other object of the store, and the authority and entity
    of the stored address, are never touched. *)
Theorem get_response_uuri_idempotent (st : State) :
  let st1 := (get_response_uuri st).2 in
  get_response_uuri st1 = (Return (source_uuri st), st1)
  /\ (forall ref, ref <> source_uuri st -> objects st1 !! ref = objects st !! ref)
  /\ (forall u, objects st !! source_uuri st = Some u ->
        exists u1, objects st1 !! source_uuri st = Some u1
                   /\ authority u1 = authority u /\ entity u1 = entity u).
Proof.
  cbv zeta. rewrite !get_response_uuri_run. simpl. split; [|split].
  - f_equal. unfold set_objects. simpl. f_equal.
    apply map_eq. intros ref.
    destruct (decide (source_uuri st = ref)) as [<-|Hne].
    + rewrite !lookup_alter_eq.
      destruct (objects st !! source_uuri st); reflexivity.
    + rewrite !lookup_alter_ne by done. reflexivity.
  - intros ref Hne. apply lookup_alter_ne. congruence.
  - intros u Hu. rewrite lookup_alter_eq, Hu. simpl. eauto.
Qed.

(** A call that fails before the query.  When the key derivation hands
    back a status, the call raises with the whole state untouched.  When
    the payload bytes are empty, it raises as well, with no substrate call
    and the registries untouched, but by then the response resource has
    already been installed in the stored source address.  What is raised is
    the [TypeError] of the [raise] statement, since the status object is
    not an exception. *)
Theorem invoke_method_rejected (E : Env) (topic : UUri) (payload : UPayload)
    (options : CallOptions) (st : State) :
  ValidationResult_bool E (UriValidator_validate E topic) = true ->
  let r := invoke_method E topic payload options st in
  let type_error := TypeError "exceptions must derive from BaseException" in
  (forall s,
     to_zenoh_key_string E (Some topic) = KeyStatus s ->
     r = (Raise type_error, st))
  /\ (forall zenoh_key,
        to_zenoh_key_string E (Some topic) = KeyString zenoh_key ->
        truthy_bytes (value payload) = false ->
        r = (Raise type_error, (get_response_uuri st).2)
        /\ new_events st r.2 = []
        /\ registries r.2 = registries st).
Proof.
  intros Hvalid. cbv zeta. unfold invoke_method. rewrite Hvalid. split.
  - intros s ->. reflexivity.
  - intros zenoh_key -> Hdata. unfold get_response_uuri. unfold_monad.
    simpl. rewrite Hdata. simpl. repeat split.
    unfold new_events. simpl. apply drop_all.
Qed.

Lemma invoke_method_rejected_witness :
  invoke_method Scenario.quiet Scenario.method_topic
    (mkUPayload UPAYLOAD_FORMAT_PROTOBUF "") (mkCallOptions 1000)
    Scenario.fresh
  = (Raise (TypeError "exceptions must derive from BaseException"),
     (get_response_uuri Scenario.fresh).2).
Proof.
  exact (proj1 (proj2 (invoke_method_rejected Scenario.quiet
                         Scenario.method_topic
                         (mkUPayload UPAYLOAD_FORMAT_PROTOBUF "")
                         (mkCallOptions 1000) Scenario.fresh eq_refl)
                  "vehicle/body/rpc.lock" eq_refl eq_refl)).
Defined.

(** The call is single-shot: only the first element of the reply channel
    is looked at.  Whatever follows the first reply, the outcome and the
    final state are those of a channel holding that reply alone. *)
Theorem invoke_method_first_reply_only (E : Env) (topic : UUri)
    (payload : UPayload) (options : CallOptions) (st : State)
    (first : Reply) (rest : list Reply) :
  invoke_method (with_receiver (inr (first :: rest)) E) topic payload options st
  = invoke_method (with_receiver (inr [first]) E) topic payload options st.
Proof.
  unfold invoke_method. simpl.
  destruct (ValidationResult_bool E (UriValidator_validate E topic)); simpl;
    [|reflexivity].
  destruct (to_zenoh_key_string E (Some topic)) as [zenoh_key|s]; simpl;
    [|reflexivity].
  unfold get_response_uuri, session_get_queue. unfold_monad. simpl.
  destruct (truthy_bytes (value payload)); simpl; [|reflexivity].
  destruct first as [ok|err]; simpl; [|reflexivity].
  unfold_monad.
  destruct (to_upayload_format E _) as [enc|]; simpl; [|reflexivity].
  destruct enc; reflexivity.
Qed.

(** An error reply that comes first ends the call with the [TypeError],
    also when a successful reply follows it; so does a successful first
    reply whose encoding maps to no payload format or to the unspecified
    one. *)
Theorem invoke_method_bad_first_reply (E : Env) (topic : UUri)
    (payload : UPayload) (options : CallOptions) (st : State)
    (zenoh_key : string) (first : Reply) (rest : list Reply) :
  ValidationResult_bool E (UriValidator_validate E topic) = true ->
  to_zenoh_key_string E (Some topic) = KeyString zenoh_key ->
  truthy_bytes (value payload) = true ->
  (forall v att t,
     session_get_receiver E zenoh_key v att t = inr (first :: rest)) ->
  match first with
  | ReplyErr _ => True
  | ReplyOk ok =>
      truthy_format (to_upayload_format E (value_encoding (sample_value ok)))
      = false
  end ->
  (invoke_method E topic payload options st).1
  = Raise (TypeError "exceptions must derive from BaseException").
Proof.
  intros Hvalid Hkey Hdata Hrecv Hfirst.
  rewrite (invoke_method_run E topic payload options st zenoh_key Hvalid Hkey Hdata).
  simpl. rewrite Hrecv. destruct first as [ok|err]; [|reflexivity].
  destruct (to_upayload_format E _) as [enc|]; [|reflexivity].
  rewrite Hfirst. reflexivity.
Qed.

Lemma invoke_method_bad_first_reply_witness :
  (invoke_method
     (Scenario.env false false
        (inr [ReplyErr "Timeout";
              ReplyOk (mkSample "vehicle/body/rpc.lock"
                         (mkValue "done" (APP_CUSTOM_with_suffix "2")) None)])
        false)
     Scenario.method_topic Scenario.some_payload (mkCallOptions 1000)
     Scenario.fresh).1
  = Raise (TypeError "exceptions must derive from BaseException").
Proof.
  exact (invoke_method_bad_first_reply
           (Scenario.env false false
              (inr [ReplyErr "Timeout";
                    ReplyOk (mkSample "vehicle/body/rpc.lock"
                               (mkValue "done" (APP_CUSTOM_with_suffix "2")) None)])
              false)
           Scenario.method_topic
           Scenario.some_payload (mkCallOptions 1000) Scenario.fresh
           "vehicle/body/rpc.lock" (ReplyErr "Timeout") _
           eq_refl eq_refl eq_refl (fun _ _ _ => eq_refl) I).
Defined.

Lemma invoke_attributes_built (E : Env) topic options st :
  UAttributesBuilder_request E
    (objects (get_response_uuri st).2 !! source_uuri st) topic UPRIORITY_CS4
    (options_ttl options)
  = invoke_attributes E topic options st.
Proof.
  rewrite get_response_uuri_run. simpl.
  unfold UAttributesBuilder_request, invoke_attributes.
  rewrite lookup_alter_eq. reflexivity.
Qed.

(** A call that gets as far as the query makes exactly one substrate
    call, whatever comes back: a blocking query on the topic's key, with
    the payload bytes, the attachment encoded from the request attributes
    and a timeout of the time-to-live divided by one thousand.  No registry
    is touched, so the call leaves no trace of itself in the adapter beyond
    the stored source address. *)
Theorem invoke_method_query (E : Env) (topic : UUri) (payload : UPayload)
    (options : CallOptions) (st : State) (zenoh_key : string) :
  ValidationResult_bool E (UriValidator_validate E topic) = true ->
  to_zenoh_key_string E (Some topic) = KeyString zenoh_key ->
  truthy_bytes (value payload) = true ->
  let r := invoke_method E topic payload options st in
  new_events st r.2
  = [EvGetQueue zenoh_key
       (mkValue (value payload)
          (APP_CUSTOM_with_suffix (str_UPayloadFormat (format payload))))
       (uattributes_to_attachment E (invoke_attributes E topic options st))
       (options_ttl options # 1000)]
  /\ registries r.2 = registries st.
Proof.
  intros Hvalid Hkey Hdata r. subst r.
  pose proof (invoke_attributes_built E topic options st) as Hattrs.
  rewrite get_response_uuri_run in Hattrs. simpl in Hattrs.
  unfold invoke_method. rewrite Hvalid, Hkey.
  unfold get_response_uuri, session_get_queue. unfold_monad. simpl.
  rewrite Hdata. simpl. rewrite Hattrs.
  destruct (session_get_receiver E _ _ _ _) as [msg|receiver]; simpl;
    [split; [trace_tail|reflexivity]|].
  destruct receiver as [|[ok|err] rest]; simpl;
    [split; [trace_tail|reflexivity]| |split; [trace_tail|reflexivity]].
  unfold_monad.
  destruct (to_upayload_format E _) as [enc|]; simpl;
    [|split; [trace_tail|reflexivity]].
  destruct enc; simpl; (split; [trace_tail|reflexivity]).
Qed.

Lemma invoke_method_query_witness :
  registries
    (invoke_method Scenario.quiet Scenario.method_topic Scenario.some_payload
       (mkCallOptions 1000) Scenario.fresh).2
  = registries Scenario.fresh.
Proof.
  exact (proj2 (invoke_method_query Scenario.quiet Scenario.method_topic
                  Scenario.some_payload (mkCallOptions 1000) Scenario.fresh
                  "vehicle/body/rpc.lock" eq_refl eq_refl eq_refl)).
Defined.

(** The message of the future is put together from the request and the
    reply: its attributes are the request attributes the call built itself
    (kind request, the topic as sink), its payload is the reply's bytes
    under the decoded format.  The reply's own attachment is not looked
    at. *)
Theorem invoke_method_result_message (E : Env) (topic : UUri)
    (payload : UPayload) (options : CallOptions) (st : State)
    (zenoh_key : string) (ok : Sample) (enc : UPayloadFormat)
    (rest : list Reply) :
  ValidationResult_bool E (UriValidator_validate E topic) = true ->
  to_zenoh_key_string E (Some topic) = KeyString zenoh_key ->
  truthy_bytes (value payload) = true ->
  (forall v att t,
     session_get_receiver E zenoh_key v att t = inr (ReplyOk ok :: rest)) ->
  to_upayload_format E (value_encoding (sample_value ok)) = Some enc ->
  enc <> UPAYLOAD_FORMAT_UNSPECIFIED ->
  (invoke_method E topic payload options st).1
  = Return (Some (Future_result
                    (mkUMessage (invoke_attributes E topic options st)
                       (mkUPayload enc (value_payload (sample_value ok)))))).
Proof.
  intros Hvalid Hkey Hdata Hrecv Henc Hne.
  rewrite (invoke_method_run E topic payload options st zenoh_key Hvalid Hkey Hdata).
  cbv zeta. rewrite Hrecv, Henc, invoke_attributes_built.
  destruct enc; simpl; done.
Qed.

Lemma invoke_method_result_message_witness :
  exists m,
    (invoke_method
       (Scenario.env false false
          (inr [ReplyOk (mkSample "vehicle/body/rpc.lock"
                           (mkValue "done" (APP_CUSTOM_with_suffix "7"))
                           (Some "garbled"))])
          false)
       Scenario.method_topic Scenario.some_payload (mkCallOptions 1000)
       Scenario.fresh).1 = Return (Some (Future_result m))
    /\ type (attributes m) = UMESSAGE_TYPE_REQUEST
    /\ payload m = mkUPayload UPAYLOAD_FORMAT_TEXT "done".
Proof.
  eexists. split; [|split].
  - exact (invoke_method_result_message
             (Scenario.env false false
                (inr [ReplyOk (mkSample "vehicle/body/rpc.lock"
                                 (mkValue "done" (APP_CUSTOM_with_suffix "7"))
                                 (Some "garbled"))])
                false)
             Scenario.method_topic Scenario.some_payload (mkCallOptions 1000)
             Scenario.fresh "vehicle/body/rpc.lock" _ UPAYLOAD_FORMAT_TEXT []
             eq_refl eq_refl eq_refl (fun _ _ _ => eq_refl) eq_refl
             ltac:(discriminate)).
  - reflexivity.
  - reflexivity.
Defined.

(** ** Further properties of registration and removal *)

Ltac unfold_registration :=
  unfold register_listener, register_response_listener,
    register_request_listener, register_publish_notification_listener,
    unregister_listener, _remove_response_listener,
    _remove_request_listener, _remove_publish_listener,
    declare_queryable, declare_subscriber in *;
  unfold_dict; unfold_monad.

Lemma unregister_flags_response (E : Env) topic :
  is_rpc_response E topic = true ->
  unregister_flags E topic = (false, false, true).
Proof. intros Hr. rewrite unregister_flags_run, Hr. reflexivity. Qed.

(** A topic that [register_listener] takes as a response address has the
    listener as its response listener afterwards. *)
Lemma register_listener_response_entry (E : Env) topic listener st :
  is_rpc_response E topic = true ->
  rpc_callback_map (register_listener E topic listener st).2
  = <[SerializeToString_UUri E topic := listener]> (rpc_callback_map st).
Proof. intros Hresp. unfold_registration. simpl. rewrite Hresp. reflexivity. Qed.

(** Every topic is registered in one registry only, chosen by its
    classification: the response listeners for a response address, which
    cannot fail; the queryables for a method address, when the substrate
    declares the queryable; the subscriptions otherwise, when the
    substrate grants a subscriber.  A substrate failure is turned into the
    internal status and leaves every registry as it was; the other
    registries and the pending queries never change. *)
Theorem register_listener_one_registry (E : Env) (topic : UUri)
    (listener : UListener) (st : State) :
  let r := register_listener E topic listener st in
  let k := SerializeToString_UUri E topic in
  let key := to_zenoh_key_string E (Some topic) in
  let ok := Return (mkUStatus OK "Successfully register listener with Zenoh") in
  let failed := Return (mkUStatus INTERNAL "Unsuccessful registration") in
  query_map r.2 = query_map st
  /\ if is_rpc_response E topic then
       r.1 = ok
       /\ rpc_callback_map r.2 = <[k := listener]> (rpc_callback_map st)
       /\ queryable_map r.2 = queryable_map st
       /\ subscriber_map r.2 = subscriber_map st
     else if is_rpc_method E topic then
       rpc_callback_map r.2 = rpc_callback_map st
       /\ subscriber_map r.2 = subscriber_map st
       /\ match session_declare_queryable E key with
          | inr queryable =>
              r.1 = ok
              /\ queryable_map r.2
                 = <[(k, listener) := queryable]> (queryable_map st)
          | inl _ => r.1 = failed /\ queryable_map r.2 = queryable_map st
          end
     else
       rpc_callback_map r.2 = rpc_callback_map st
       /\ queryable_map r.2 = queryable_map st
       /\ match session_declare_subscriber E key with
          | inr (Some subscriber) =>
              r.1 = ok
              /\ subscriber_map r.2
                 = <[(k, listener) := subscriber]> (subscriber_map st)
          | _ => r.1 = failed /\ subscriber_map r.2 = subscriber_map st
          end.
Proof.
  cbv zeta. unfold_registration. simpl.
  destruct (is_rpc_response E topic); simpl; [repeat split|].
  destruct (is_rpc_method E topic); simpl.
  - destruct (session_declare_queryable E _) as [?|queryable]; simpl;
      repeat split.
  - destruct (session_declare_subscriber E _) as [?|[subscriber|]]; simpl;
      repeat split.
Qed.

Lemma register_listener_one_registry_witness :
  subscriber_map
    (register_listener Scenario.quiet Scenario.door_topic 5%positive
       Scenario.fresh).2
  = <[(Scenario.serialize_uuri Scenario.door_topic, 5%positive) := 11%positive]>
      (subscriber_map Scenario.fresh).
Proof.
  exact (proj2 (proj2 (proj2 (proj2
           (register_listener_one_registry Scenario.quiet Scenario.door_topic
              5%positive Scenario.fresh))))).
Defined.

(** A response address has one listener at a time.  Registering a second
    listener replaces the first; unregistering then removes the
    registration whichever of the two listeners is named, and a further
    unregistration, also by the listener that is registered last, raises. *)
Theorem response_listener_replaced (E : Env) (topic : UUri)
    (first second named : UListener) (st : State) :
  is_rpc_response E topic = true ->
  let k := SerializeToString_UUri E topic in
  let st1 := (register_listener E topic first st).2 in
  let st2 := (register_listener E topic second st1).2 in
  let u1 := unregister_listener E topic named st2 in
  let u2 := unregister_listener E topic second u1.2 in
  rpc_callback_map st2 !! k = Some second
  /\ u1.1 = Return tt
  /\ rpc_callback_map u1.2 = delete k (rpc_callback_map st)
  /\ u2.1 = Raise (ValueError "RPC response callback doesn't exist").
Proof.
  intros Hresp k st1 st2 u1 u2.
  assert (H2 : rpc_callback_map st2
               = <[k := second]> (<[k := first]> (rpc_callback_map st))).
  { subst st2 st1.
    rewrite !(register_listener_response_entry E topic _ _ Hresp).
    reflexivity. }
  assert (L2 : rpc_callback_map st2 !! k = Some second)
    by (rewrite H2; apply lookup_insert_eq).
  pose proof (unregister_listener_run E topic named st2) as Hu1.
  cbv zeta in Hu1. rewrite (unregister_flags_response E topic Hresp) in Hu1.
  fold k u1 in Hu1. rewrite L2 in Hu1. simpl in Hu1.
  destruct Hu1 as (_ & R1 & M1 & _).
  assert (L3 : rpc_callback_map u1.2 !! k = None)
    by (rewrite M1; apply lookup_delete_eq).
  pose proof (unregister_listener_run E topic second u1.2) as Hu2.
  cbv zeta in Hu2. rewrite (unregister_flags_response E topic Hresp) in Hu2.
  fold k u2 in Hu2. rewrite L3 in Hu2. simpl in Hu2.
  destruct Hu2 as (_ & R2 & _).
  split; [exact L2|]. split; [exact R1|]. split; [|exact R2].
  rewrite M1, H2, insert_insert_eq. apply delete_insert_eq.
Qed.

Lemma response_listener_replaced_witness :
  (unregister_listener Scenario.quiet Scenario.response_topic 6%positive
     (unregister_listener Scenario.quiet Scenario.response_topic 5%positive
        (register_listener Scenario.quiet Scenario.response_topic 6%positive
           (register_listener Scenario.quiet Scenario.response_topic 5%positive
              Scenario.fresh).2).2).2).1
  = Raise (ValueError "RPC response callback doesn't exist").
Proof.
  exact (proj2 (proj2 (proj2
           (response_listener_replaced Scenario.quiet Scenario.response_topic
              5%positive 6%positive 5%positive Scenario.fresh
              eq_refl)))).
Defined.

(** Registration and request send fit together: once [register_listener]
    has taken a topic as a response address, a request whose source is
    that topic gets as far as the query, and the reply handler of that
    query is bound to the listener registered last for the topic. *)
Theorem registered_listener_gets_replies (E : Env) (topic : UUri)
    (listener : UListener) (message : UMessage) (st : State)
    (att : Attachment) :
  is_rpc_response E topic = true ->
  type (attributes message) = UMESSAGE_TYPE_REQUEST ->
  truthy_bytes (value (payload message)) = true ->
  uattributes_to_attachment E (attributes message) = Some att ->
  source (attributes message) = Some topic ->
  let st1 := (register_listener E topic listener st).2 in
  exists v timeout,
    new_events st1 (send E message st1).2
    = [EvGetCallback (to_zenoh_key_string E (sink (attributes message)))
         listener v timeout].
Proof.
  intros Hresp Hkind Hdata Hatt Hsrc st1.
  assert (Hcb : rpc_callback_map st1 !! SerializeToString_UUri E topic
                = Some listener).
  { subst st1. rewrite (register_listener_response_entry E topic _ _ Hresp).
    apply lookup_insert_eq. }
  unfold send. rewrite Hkind.
  unfold send_request, session_get_callback. unfold_monad.
  rewrite Hdata, Hatt, Hsrc. simpl. rewrite Hcb. simpl.
  eexists _, _.
  destruct (session_get_raises E _ _ _); simpl; trace_tail.
Qed.

Lemma registered_listener_gets_replies_witness :
  exists v timeout,
    new_events
      (register_listener Scenario.quiet Scenario.response_topic 8%positive
         Scenario.fresh).2
      (send Scenario.quiet (Scenario.request_message None)
         (register_listener Scenario.quiet Scenario.response_topic 8%positive
            Scenario.fresh).2).2
    = [EvGetCallback (KeyString "vehicle/body/rpc.lock") 8%positive v timeout].
Proof.
  exact (registered_listener_gets_replies Scenario.quiet
           Scenario.response_topic 8%positive (Scenario.request_message None)
           Scenario.fresh ("attrs:" ++ Scenario.serialize_uuid (mkUUID 3 4))
           eq_refl eq_refl eq_refl eq_refl eq_refl).
Defined.

(** A freshly constructed adapter has nothing registered and nothing
    pending: unregistering any topic and listener raises, no request is
    sent (its status is never ok and the state stays as it is), every
    response gets the internal status, and the stored source address is the
    given authority and entity with no resource. *)
Theorem init_registers_nothing (E : Env) (uauthority : UAuthority)
    (uentity : UEntity) (topic : UUri) (listener : UListener)
    (message : UMessage) :
  let st := init uauthority uentity in
  (exists msg,
     (unregister_listener E topic listener st).1 = Raise (ValueError msg))
  /\ (type (attributes message) = UMESSAGE_TYPE_REQUEST ->
      exists status,
        send E message st = (Return status, st) /\ code status <> OK)
  /\ (type (attributes message) = UMESSAGE_TYPE_RESPONSE ->
      (send E message st).1 = Return (mkUStatus INTERNAL "Query doesn't exist"))
  /\ objects st !! source_uuri st
     = Some (mkUUri (Some uauthority) (Some uentity) None).
Proof.
  cbv zeta. split; [|split; [|split]].
  - pose proof (unregister_listener_run E topic listener
                  (init uauthority uentity)) as Hun.
    cbv zeta in Hun. rewrite unregister_flags_run in Hun.
    destruct (is_rpc_response E topic);
      [|destruct (is_rpc_method E topic)];
      simpl in Hun; rewrite ?lookup_empty in Hun; simpl in Hun;
      destruct Hun as (_ & Hr & _); eauto.
  - intros Hkind. unfold send. rewrite Hkind. unfold send_request.
    unfold_monad.
    destruct (truthy_bytes (value (payload message))); simpl;
      [|eexists; split; [reflexivity|discriminate]].
    destruct (uattributes_to_attachment E (attributes message)); simpl;
      [|eexists; split; [reflexivity|discriminate]].
    rewrite lookup_empty. eexists; split; [reflexivity|discriminate].
  - intros Hkind. unfold send. rewrite Hkind. rewrite send_response_run.
    simpl. rewrite lookup_empty. reflexivity.
  - reflexivity.
Qed.

Lemma init_registers_nothing_witness :
  exists status,
    send Scenario.quiet (Scenario.request_message None)
      (init Scenario.vehicle Scenario.body)
    = (Return status, init Scenario.vehicle Scenario.body)
    /\ code status <> OK.
Proof.
  exact (proj1 (proj2 (init_registers_nothing Scenario.quiet Scenario.vehicle
                         Scenario.body Scenario.door_topic 5%positive
                         (Scenario.request_message None))) eq_refl).
Defined.

Lemma get_response_uuri_idempotent_witness :
  exists u1,
    objects (get_response_uuri Scenario.fresh).2 !! source_uuri Scenario.fresh
    = Some u1
    /\ authority u1 = Some Scenario.vehicle /\ entity u1 = Some Scenario.body.
Proof.
  exact (proj2 (proj2 (get_response_uuri_idempotent Scenario.fresh))
           (mkUUri (Some Scenario.vehicle) (Some Scenario.body) None) eq_refl).
Defined.

(** Pending queries have no other way in or out than the queryable
    callback and the response send: registering a listener, unregistering
    one (the request listener included) and the blocking call leave the
    pending-query registry exactly as it is, so a query whose response is
    never sent stays tracked. *)
Theorem pending_queries_frame (E : Env) (topic : UUri) (listener : UListener)
    (payload : UPayload) (options : CallOptions) (st : State) :
  query_map (register_listener E topic listener st).2 = query_map st
  /\ query_map (unregister_listener E topic listener st).2 = query_map st
  /\ query_map (invoke_method E topic payload options st).2 = query_map st.
Proof.
  split; [|split].
  - unfold_registration. simpl.
    destruct (is_rpc_response E topic); simpl; [reflexivity|].
    destruct (is_rpc_method E topic); simpl.
    + destruct (session_declare_queryable E _) as [?|queryable]; reflexivity.
    + destruct (session_declare_subscriber E _) as [?|[subscriber|]];
        reflexivity.
  - pose proof (unregister_listener_run E topic listener st) as Hun.
    cbv zeta in Hun. destruct (unregister_flags E topic) as [[pub req] resp].
    exact (proj1 Hun).
  - unfold invoke_method.
    destruct (ValidationResult_bool E (UriValidator_validate E topic)); simpl;
      [|reflexivity].
    destruct (to_zenoh_key_string E (Some topic)) as [zenoh_key|s]; simpl;
      [|reflexivity].
    unfold get_response_uuri, session_get_queue. unfold_monad. simpl.
    destruct (truthy_bytes (value payload)); simpl; [|reflexivity].
    destruct (session_get_receiver E _ _ _ _) as [msg|receiver]; simpl;
      [reflexivity|].
    destruct receiver as [|[ok|err] rest]; simpl; [reflexivity| |reflexivity].
    unfold_monad.
    destruct (to_upayload_format E _) as [enc|]; simpl; [|reflexivity].
    destruct enc; reflexivity.
Qed.
